(** * Estimators.ipynb: the input adapter and the mean-AUC aggregator

    The notebook drives two external libraries (DeepChem and TensorFlow) and
    authors two functions of its own, [input_fn] and [mean_auc].  The
    libraries are not part of the notebook, so every library call is taken
    from an interface ([Library] for the calls the two functions make,
    [Toolkit] for the calls the cells make); the notebook's own code is
    written once, over that interface, in a monad that threads the module
    namespace, the libraries' internal state and a log of the calls made,
    and in which a raised exception aborts the computation.

    Floats are modelled by exact rationals. *)

From Stdlib Require Import QArith Qreduction Lqa.
From stdpp Require Import base option list strings gmap.

Local Open Scope Z_scope.

(** ** Exceptions and results *)

Inductive Exn : Set :=
| NameError (name : string)
| TypeError (name : string)
| IndexError
| ValueError
| OutOfRangeError
| LibraryError (what : string).

(** [inl e]: the call raised [e]; [inr a]: it returned [a]. *)
Abbreviation Res A := (Exn + A)%type.

(** ** The objects owned by the libraries *)

Class Objects := {
  Host : Type;          (* the libraries' internal state (graph, variables, files) *)
  Dataset : Type;
  Iterator : Type;
  Tensor : Type;
  Op : Type;
  Model : Type;
  Metric : Type;
  Column : Type;
  Estimator : Type;
  Transformers : Type;
}.

(** The library calls made by [input_fn] and [mean_auc]. *)
Class Library `{Objects} := {
  (* dataset.make_iterator(batch_size=.., epochs=..) *)
  make_iterator : Dataset → Z → Z → Host → Res Iterator * Host;
  (* iterator.get_next() *)
  get_next : Iterator → Host → Res (Tensor * Tensor * Tensor) * Host;
  (* t[:,i] *)
  getitem_col : Tensor → nat → Host → Res Tensor * Host;
  (* tf.metrics.auc(labels, predictions, weights) *)
  metrics_auc : Tensor → Tensor → Tensor → Host → Res (Tensor * Op) * Host;
  (* tf.stack(values) *)
  stack : list Tensor → Host → Res Tensor * Host;
  (* tf.reduce_mean(t) *)
  reduce_mean : Tensor → Host → Res Tensor * Host;
  (* tf.group( *ops ) *)
  group : list Op → Host → Res Op * Host;
}.

(** Function objects handed to the libraries.  [lambda: input_fn(d, e)] is
    the closure [InputFnClosure d e]; [mean_auc], [dc.metrics.roc_auc_score]
    and [np.mean] are passed by name. *)
Inductive InputFn `{Objects} := InputFnClosure (dataset : Dataset) (epochs : Z).
Inductive MetricFn := MeanAuc.
Inductive ScoreFn := roc_auc_score.
Inductive Averager := np_mean.

(** What [evaluate] returns and [print] shows: a dict from metric names to
    floats, in display order. *)
Definition Report := list (string * Q).

(** The library calls made by the cells of the notebook. *)
Class Toolkit `{Objects} := {
  (* import name *)
  import_module : string → Host → Res unit * Host;
  (* dc.molnet.load_tox21() *)
  load_tox21 : Host → Res (list string * (Dataset * Dataset * Dataset) * Transformers) * Host;
  (* dataset.X.shape[1] *)
  X_shape_1 : Dataset → Host → Res Z * Host;
  (* dc.models.MultitaskClassifier(n_tasks, n_features, layer_sizes=.., dropouts=..) *)
  MultitaskClassifier : Z → Z → list Z → Q → Host → Res Model * Host;
  (* model.fit(dataset, nb_epoch=..) *)
  fit : Model → Dataset → Z → Host → Res unit * Host;
  (* dc.metrics.Metric(score, averager) *)
  dc_Metric : ScoreFn → Averager → Host → Res Metric * Host;
  (* model.evaluate(dataset, metrics) *)
  evaluate : Model → Dataset → list Metric → Host → Res Report * Host;
  (* tf.feature_column.numeric_column(name, shape=..) *)
  numeric_column : string → list Z → Host → Res Column * Host;
  (* model.make_estimator(feature_columns=.., weight_column=.., metrics=.., model_dir=..) *)
  make_estimator : Model → list Column → Column → list (string * MetricFn) → string →
                   Host → Res Estimator * Host;
  (* estimator.train(input_fn=..) *)
  estimator_train : Estimator → InputFn → Host → Res unit * Host;
  (* estimator.evaluate(input_fn=..) *)
  estimator_evaluate : Estimator → InputFn → Host → Res Report * Host;
}.

(** ** Values, calls and the world *)

Section World.
Context `{Objects}.

(** What a name of the notebook's module namespace can be bound to. *)
Inductive Value :=
| VNone
| VInt (z : Z)
| VStrs (l : list string)
| VDataset (d : Dataset)
| VDatasets (ds : Dataset * Dataset * Dataset)
| VTransformers (t : Transformers)
| VModel (m : Model)
| VMetric (m : Metric)
| VColumn (c : Column)
| VEstimator (e : Estimator)
| VIterator (it : Iterator)
| VTensor (t : Tensor)
| VTensors (ts : Tensor * Tensor * Tensor)
| VMetricOps (mo : Tensor * Op)
| VOp (o : Op)
| VLoaded (r : list string * (Dataset * Dataset * Dataset) * Transformers)
| VReport (r : Report)
| VModule (name : string)      (* an imported module *)
| VInputFn                     (* the function object made by [def input_fn] *)
| VMetricFn (f : MetricFn).    (* the function object made by [def mean_auc] *)

(** A call, with its arguments. *)
Inductive Call :=
| CMakeIterator (dataset : Dataset) (batch_size epochs : Z)
| CGetNext (it : Iterator)
| CGetItem (t : Tensor) (i : nat)
| CAuc (labels predictions weights : Tensor)
| CStack (values : list Tensor)
| CReduceMean (t : Tensor)
| CGroup (ops : list Op)
| CLoadTox21
| CXShape1 (dataset : Dataset)
| CMultitaskClassifier (n_tasks n_features : Z) (layer_sizes : list Z) (dropouts : Q)
| CFit (m : Model) (dataset : Dataset) (nb_epoch : Z)
| CMetric (f : ScoreFn) (a : Averager)
| CEvaluate (m : Model) (dataset : Dataset) (metrics : list Metric)
| CPrint (r : Report)
| CNumericColumn (name : string) (shape : list Z)
| CMakeEstimator (m : Model) (feature_columns : list Column) (weight_column : Column)
                 (metrics : list (string * MetricFn)) (model_dir : string)
| CTrain (e : Estimator) (f : InputFn)
| CEstEvaluate (e : Estimator) (f : InputFn)
| CImport (name : string).

Inductive Outcome :=
| Returned (v : Value)
| Raised (e : Exn).

Record Event := { call : Call; outcome : Outcome }.

Record World := {
  globals : gmap string Value;   (* the notebook's module namespace *)
  host : Host;                   (* state kept by the libraries *)
  log : list Event;              (* the calls made so far, oldest first *)
}.

(** ** The monad of the notebook's code *)

Definition M (A : Type) : Type := World → Res A * World.

Definition ret {A} (a : A) : M A := λ w, (inr a, w).

Definition bind {A B} (m : M A) (k : A → M B) : M B :=
  λ w, match m w with
       | (inl e, w') => (inl e, w')
       | (inr a, w') => k a w'
       end.

Definition raise {A} (e : Exn) : M A := λ w, (inl e, w).

Definition outcome_of {A} (show : A → Value) (r : Res A) : Outcome :=
  match r with
  | inl e => Raised e
  | inr a => Returned (show a)
  end.

(** A library call: run it on the libraries' state and log it. *)
Definition invoke {A} (c : Call) (show : A → Value) (f : Host → Res A * Host) : M A :=
  λ w, let '(r, h) := f (host w) in
       (r, {| globals := globals w; host := h;
              log := log w ++ [{| call := c; outcome := outcome_of show r |}] |}).

(** Reading and binding a global name. *)
Definition read (x : string) : M Value :=
  λ w, match globals w !! x with
       | Some v => (inr v, w)
       | None => (inl (NameError x), w)
       end.

Definition assign (x : string) (v : Value) : M unit :=
  λ w, (inr tt, {| globals := <[x := v]> (globals w); host := host w; log := log w |}).

(** [range(n)] for a Python value [n]. *)
Definition range (x : string) (v : Value) : M (list nat) :=
  match v with
  | VInt n => ret (seq 0 (Z.to_nat n))
  | _ => raise (TypeError x)
  end.

(** [for i in idxs: st = body i st], where [st] holds the locals the body updates. *)
Fixpoint for_each {S} (body : nat → S → M S) (idxs : list nat) (st : S) : M S :=
  match idxs with
  | [] => ret st
  | i :: rest => bind (body i st) (for_each body rest)
  end.

End World.

Global Instance M_ret `{Objects} : MRet M := @ret _.
Global Instance M_bind `{Objects} : MBind M := λ A B k m, bind m k.

(** ** The two functions of the notebook *)

Section Adapters.
Context `{Library}.

(** Cell 3:
<<
def input_fn(dataset, epochs):
    x, y, weights = dataset.make_iterator(batch_size=100, epochs=epochs).get_next()
    return {'x': x, 'weights': weights}, y
>> *)
Definition input_fn (dataset : Dataset) (epochs : Z) : M (gmap string Tensor * Tensor) :=
  it ← invoke (CMakeIterator dataset 100 epochs) VIterator (make_iterator dataset 100 epochs);
  '(x, y, weights) ← invoke (CGetNext it) VTensors (get_next it);
  mret ({["x" := x; "weights" := weights]}, y).

(** The body of the loop of [mean_auc]; the locals it updates are the two
    lists [metric_ops] and [update_ops]. *)
Definition mean_auc_body (labels predictions weights : Tensor) (i : nat)
    (locals : list Tensor * list Op) : M (list Tensor * list Op) :=
  let '(metric_ops, update_ops) := locals in
  l ← invoke (CGetItem labels i) VTensor (getitem_col labels i);
  p ← invoke (CGetItem predictions i) VTensor (getitem_col predictions i);
  w ← invoke (CGetItem weights i) VTensor (getitem_col weights i);
  '(metric, update) ← invoke (CAuc l p w) VMetricOps (metrics_auc l p w);
  mret (metric_ops ++ [metric], update_ops ++ [update]).

(** Cell 5:
<<
def mean_auc(labels, predictions, weights):
    metric_ops = []
    update_ops = []
    for i in range(n_tasks):
        metric, update = tf.metrics.auc(labels[:,i], predictions[:,i], weights[:,i])
        metric_ops.append(metric)
        update_ops.append(update)
    mean_metric = tf.reduce_mean(tf.stack(metric_ops))
    update_all = tf.group( *update_ops)
    return mean_metric, update_all
>>
    [n_tasks] is a name of the enclosing module, read when the loop starts. *)
Definition mean_auc (labels predictions weights : Tensor) : M (Tensor * Op) :=
  n_tasks ← read "n_tasks";
  idxs ← range "n_tasks" n_tasks;
  '(metric_ops, update_ops) ← for_each (mean_auc_body labels predictions weights) idxs ([], []);
  stacked ← invoke (CStack metric_ops) VTensor (stack metric_ops);
  mean_metric ← invoke (CReduceMean stacked) VTensor (reduce_mean stacked);
  update_all ← invoke (CGroup update_ops) VOp (group update_ops);
  mret (mean_metric, update_all).

End Adapters.

(** ** The cells of the notebook *)

Section Notebook.
Context `{Toolkit}.

(** Typed reads of global names; a name bound to something else is a
    [TypeError] at the point of use. *)
Definition read_dataset (x : string) : M Dataset :=
  v ← read x; match v with VDataset d => mret d | _ => raise (TypeError x) end.
Definition read_datasets (x : string) : M (Dataset * Dataset * Dataset) :=
  v ← read x; match v with VDatasets d => mret d | _ => raise (TypeError x) end.
Definition read_strs (x : string) : M (list string) :=
  v ← read x; match v with VStrs l => mret l | _ => raise (TypeError x) end.
Definition read_int (x : string) : M Z :=
  v ← read x; match v with VInt z => mret z | _ => raise (TypeError x) end.
Definition read_model (x : string) : M Model :=
  v ← read x; match v with VModel m => mret m | _ => raise (TypeError x) end.
Definition read_metric (x : string) : M Metric :=
  v ← read x; match v with VMetric m => mret m | _ => raise (TypeError x) end.
Definition read_column (x : string) : M Column :=
  v ← read x; match v with VColumn c => mret c | _ => raise (TypeError x) end.
Definition read_estimator (x : string) : M Estimator :=
  v ← read x; match v with VEstimator e => mret e | _ => raise (TypeError x) end.
Definition read_module (x : string) : M string :=
  v ← read x; match v with VModule m => mret m | _ => raise (TypeError x) end.
Definition read_input_fn (x : string) : M unit :=
  v ← read x; match v with VInputFn => mret tt | _ => raise (TypeError x) end.
Definition read_metric_fn (x : string) : M MetricFn :=
  v ← read x; match v with VMetricFn f => mret f | _ => raise (TypeError x) end.

(** [print(r)]: a builtin, logged like a call; it returns [None]. *)
Definition print (r : Report) : M unit :=
  invoke (CPrint r) (λ _, VNone) (λ h, (inr tt, h)).

(** Cell 1:
<<
import deepchem as dc
import tensorflow as tf
import numpy as np

tasks, datasets, transformers = dc.molnet.load_tox21()
train_dataset, valid_dataset, test_dataset = datasets
n_tasks = len(tasks)
n_features = train_dataset.X.shape[1]

model = dc.models.MultitaskClassifier(n_tasks, n_features, layer_sizes=[1000], dropouts=0.25)
>>
    A dotted name such as [dc.molnet.load_tox21] first reads the module
    alias. *)
Definition cell_1 : M unit :=
  invoke (CImport "deepchem") (λ _, VModule "deepchem") (import_module "deepchem");;
  assign "dc" (VModule "deepchem");;
  invoke (CImport "tensorflow") (λ _, VModule "tensorflow") (import_module "tensorflow");;
  assign "tf" (VModule "tensorflow");;
  invoke (CImport "numpy") (λ _, VModule "numpy") (import_module "numpy");;
  assign "np" (VModule "numpy");;
  read_module "dc";;
  '(tasks, datasets, transformers) ← invoke CLoadTox21 VLoaded load_tox21;
  assign "tasks" (VStrs tasks);;
  assign "datasets" (VDatasets datasets);;
  assign "transformers" (VTransformers transformers);;
  '(train_dataset, valid_dataset, test_dataset) ← read_datasets "datasets";
  assign "train_dataset" (VDataset train_dataset);;
  assign "valid_dataset" (VDataset valid_dataset);;
  assign "test_dataset" (VDataset test_dataset);;
  tasks ← read_strs "tasks";
  assign "n_tasks" (VInt (Z.of_nat (length tasks)));;
  train_dataset ← read_dataset "train_dataset";
  n_features ← invoke (CXShape1 train_dataset) VInt (X_shape_1 train_dataset);
  assign "n_features" (VInt n_features);;
  read_module "dc";;
  n_tasks ← read_int "n_tasks";
  n_features ← read_int "n_features";
  model ← invoke (CMultitaskClassifier n_tasks n_features [1000] (1 # 4)) VModel
                 (MultitaskClassifier n_tasks n_features [1000] (1 # 4));
  assign "model" (VModel model).

(** Cell 2:
<<
model.fit(train_dataset, nb_epoch=100)
metric = dc.metrics.Metric(dc.metrics.roc_auc_score, np.mean)
print(model.evaluate(test_dataset, [metric]))
>> *)
Definition cell_2 : M unit :=
  model ← read_model "model";
  train_dataset ← read_dataset "train_dataset";
  invoke (CFit model train_dataset 100) (λ _, VNone) (fit model train_dataset 100);;
  read_module "dc";;
  read_module "dc";;
  read_module "np";;
  metric ← invoke (CMetric roc_auc_score np_mean) VMetric (dc_Metric roc_auc_score np_mean);
  assign "metric" (VMetric metric);;
  model ← read_model "model";
  test_dataset ← read_dataset "test_dataset";
  metric ← read_metric "metric";
  scores ← invoke (CEvaluate model test_dataset [metric]) VReport
                  (evaluate model test_dataset [metric]);
  print scores.

(** Cell 3: [def input_fn(dataset, epochs): ...] binds the name [input_fn]
    to the function; the body is [input_fn] above and runs when called. *)
Definition cell_3 : M unit :=
  assign "input_fn" VInputFn.

(** Cell 4:
<<
x_col = tf.feature_column.numeric_column('x', shape=(n_features,))
weight_col = tf.feature_column.numeric_column('weights', shape=(n_tasks,))
>> *)
Definition cell_4 : M unit :=
  read_module "tf";;
  n_features ← read_int "n_features";
  x_col ← invoke (CNumericColumn "x" [n_features]) VColumn (numeric_column "x" [n_features]);
  assign "x_col" (VColumn x_col);;
  read_module "tf";;
  n_tasks ← read_int "n_tasks";
  weight_col ← invoke (CNumericColumn "weights" [n_tasks]) VColumn
                      (numeric_column "weights" [n_tasks]);
  assign "weight_col" (VColumn weight_col).

(** Cell 5: [def mean_auc(labels, predictions, weights): ...] binds the
    name [mean_auc] to the function; the body is [mean_auc] above. *)
Definition cell_5 : M unit :=
  assign "mean_auc" (VMetricFn MeanAuc).

(** Cell 6:
<<
estimator = model.make_estimator(feature_columns=[x_col],
                                 weight_column=weight_col,
                                 metrics={'mean_auc': mean_auc},
                                 model_dir='estimator')
>> *)
Definition cell_6 : M unit :=
  model ← read_model "model";
  x_col ← read_column "x_col";
  weight_col ← read_column "weight_col";
  mean_auc_fn ← read_metric_fn "mean_auc";
  estimator ← invoke (CMakeEstimator model [x_col] weight_col [("mean_auc", mean_auc_fn)]
                        "estimator")
                     VEstimator
                     (make_estimator model [x_col] weight_col [("mean_auc", mean_auc_fn)]
                        "estimator");
  assign "estimator" (VEstimator estimator).

(** Cell 7:
<<
estimator.train(input_fn=lambda: input_fn(train_dataset, 100))
print(estimator.evaluate(input_fn=lambda: input_fn(test_dataset, 1)))
>>
    The names a lambda uses ([input_fn] and the dataset) are resolved when
    the closure is handed to the estimator; no cell rebinds them. *)
Definition cell_7 : M unit :=
  estimator ← read_estimator "estimator";
  read_input_fn "input_fn";;
  train_dataset ← read_dataset "train_dataset";
  invoke (CTrain estimator (InputFnClosure train_dataset 100)) (λ _, VNone)
         (estimator_train estimator (InputFnClosure train_dataset 100));;
  estimator ← read_estimator "estimator";
  read_input_fn "input_fn";;
  test_dataset ← read_dataset "test_dataset";
  scores ← invoke (CEstEvaluate estimator (InputFnClosure test_dataset 1)) VReport
                  (estimator_evaluate estimator (InputFnClosure test_dataset 1));
  print scores.

(** The cells in the order the notebook records their execution (counts 1
    to 7). *)
Definition notebook : M unit :=
  cell_1;; cell_2;; cell_3;; cell_4;; cell_5;; cell_6;; cell_7.

End Notebook.

(** ** A reference semantics for the calls of the two functions *)

Module Ref.

(** A tensor is modelled by the value it denotes (for a tensor fed by an
    iterator, the batch it delivers first).  A matrix carries its static
    number of columns; its rows are the samples of a batch. *)
Inductive RTensor :=
| RScalar (q : Q)
| RNaN
| RVector (v : list Q)
| RMatrix (ncols : nat) (rows : list (list Q)).

(** An update operation: [Update k] feeds the [k]-th streaming accumulator,
    [Group ops] runs all of [ops]. *)
#[warnings="-register-all"]
Inductive ROp :=
| Update (k : nat)
| Group (ops : list ROp).

(** One sample: features, one label per task, one weight per task. *)
Definition Sample : Type := list Q * list Q * list Q.

Record RDataset := {
  n_features : nat;
  n_labels : nat;
  samples : list Sample;
}.

Record RIterator := {
  it_features : nat;
  it_labels : nat;
  it_batches : list (list Sample);
}.

(** The accumulators registered by [tf.metrics.auc], oldest first: the
    label, prediction and weight vectors each one is fed from. *)
Definition RHost : Type := list (list Q * list Q * list Q).

Definition sumQ (l : list Q) : Q := foldr Qplus 0%Q l.

(** The arithmetic mean, reduced to lowest terms; the mean of nothing is
    not a number. *)
Definition mean (l : list Q) : RTensor :=
  match l with
  | [] => RNaN
  | _ => RScalar (Qred (sumQ l / inject_Z (Z.of_nat (length l))))
  end.

Definition column (i : nat) (rows : list (list Q)) : list Q :=
  map (λ r, nth i r 0%Q) rows.

(** [l] cut into consecutive pieces of [size] elements, the last one
    possibly shorter. *)
Definition chunks {A} (size : nat) (l : list A) : list (list A) :=
  map (λ k, take size (drop (k * size) l)) (seq 0 (Nat.div (length l + size - 1) size)).

Definition scalars (ts : list RTensor) : option (list Q) :=
  mapM (λ t, match t with RScalar q => Some q | _ => None end) ts.

Section Semantics.
(** The AUC statistic itself belongs to the metrics library. *)
Variable auc_stat : list Q → list Q → list Q → Q.

(** Modelled from the spec: [Dataset.make_iterator], which is DeepChem code
    outside the notebook: "pulling fixed-size batches from the dataset's
    iterator for the requested number of passes". *)
Definition ref_make_iterator (d : RDataset) (batch_size epochs : Z) (h : RHost)
    : Res RIterator * RHost :=
  if batch_size <=? 0 then (inl ValueError, h)
  else (inr {| it_features := n_features d; it_labels := n_labels d;
               it_batches := concat (replicate (Z.to_nat epochs)
                                       (chunks (Z.to_nat batch_size) (samples d))) |}, h).

(** Modelled from the spec: [Iterator.get_next], which is TensorFlow code
    outside the notebook: the next batch of the iterator, as three tensors. *)
Definition ref_get_next (it : RIterator) (h : RHost)
    : Res (RTensor * RTensor * RTensor) * RHost :=
  match it_batches it with
  | [] => (inl OutOfRangeError, h)
  | b :: _ => (inr (RMatrix (it_features it) (map (λ s, s.1.1) b),
                    RMatrix (it_labels it) (map (λ s, s.1.2) b),
                    RMatrix (it_labels it) (map (λ s, s.2) b)), h)
  end.

(** Modelled from the spec: the slice [t[:,i]], which is TensorFlow code
    outside the notebook: column [i] of a matrix; out of range it raises, as
    indexing does in Python. *)
Definition ref_getitem_col (t : RTensor) (i : nat) (h : RHost) : Res RTensor * RHost :=
  match t with
  | RMatrix ncols rows =>
      if (i <? ncols)%nat then (inr (RVector (column i rows)), h) else (inl IndexError, h)
  | _ => (inl IndexError, h)
  end.

(** Modelled from the spec: [tf.metrics.auc], which is TensorFlow code
    outside the notebook: "one AUC statistic per task", with the update
    operation of the accumulator it registers. *)
Definition ref_metrics_auc (labels predictions weights : RTensor) (h : RHost)
    : Res (RTensor * ROp) * RHost :=
  match labels, predictions, weights with
  | RVector l, RVector p, RVector w =>
      (inr (RScalar (auc_stat l p w), Update (length h)), h ++ [(l, p, w)])
  | _, _, _ => (inl ValueError, h)
  end.

(** Modelled from the spec: [tf.stack], which is TensorFlow code outside the
    notebook: the vector of the given scalars. *)
Definition ref_stack (values : list RTensor) (h : RHost) : Res RTensor * RHost :=
  match scalars values with
  | Some v => (inr (RVector v), h)
  | None => (inl ValueError, h)
  end.

(** Modelled from the spec: [tf.reduce_mean], which is TensorFlow code
    outside the notebook: "their arithmetic mean", over all entries. *)
Definition ref_reduce_mean (t : RTensor) (h : RHost) : Res RTensor * RHost :=
  match t with
  | RScalar q => (inr (RScalar q), h)
  | RNaN => (inr RNaN, h)
  | RVector v => (inr (mean v), h)
  | RMatrix _ rows => (inr (mean (concat rows)), h)
  end.

(** Modelled from the spec: [tf.group], which is TensorFlow code outside the
    notebook: "a combined update operation". *)
Definition ref_group (ops : list ROp) (h : RHost) : Res ROp * RHost :=
  (inr (Group ops), h).

End Semantics.

Definition objects : Objects := {|
  Host := RHost; Dataset := RDataset; Iterator := RIterator;
  Tensor := RTensor; Op := ROp;
  Model := unit; Metric := unit; Column := unit; Estimator := unit; Transformers := unit;
|}.

(** The reference library, for a given AUC statistic. *)
Definition library (auc_stat : list Q → list Q → list Q → Q) : @Library objects :=
  @Build_Library objects
    ref_make_iterator ref_get_next ref_getitem_col (ref_metrics_auc auc_stat)
    ref_stack ref_reduce_mean ref_group.

(** The exact weighted ROC AUC (the probability that a positive sample is
    scored above a negative one, ties counting one half), the quantity
    [tf.metrics.auc] approximates; used to run the semantics on examples. *)
Definition roc_auc (labels predictions weights : list Q) : Q :=
  let items := zip (zip labels predictions) weights in
  let positive (s : Q * Q * Q) : bool := negb (Qle_bool s.1.1 (1 # 2)) in
  let pos := List.filter positive items in
  let neg := List.filter (λ s, negb (positive s)) items in
  let score (a b : Q * Q * Q) : Q :=
    if Qeq_bool a.1.2 b.1.2 then (1 # 2)%Q
    else if Qle_bool a.1.2 b.1.2 then 0%Q else 1%Q in
  let num := sumQ (a ← pos; b ← neg; [(a.2 * b.2 * score a b)%Q]) in
  let den := (sumQ (map snd pos) * sumQ (map snd neg))%Q in
  if Qeq_bool den 0 then 0%Q else Qred (num / den).

(** The reference library with the exact ROC AUC. *)
Definition roc_library : @Library objects := library roc_auc.

(** Column [i] of a matrix, and "has at least [n] columns". *)
Definition col (i : nat) (t : RTensor) : list Q :=
  match t with
  | RMatrix _ rows => column i rows
  | _ => []
  end.

Definition has_columns (n : nat) (t : RTensor) : Prop :=
  match t with
  | RMatrix ncols _ => (n ≤ ncols)%nat
  | _ => False
  end.

(** The per-task statistics [mean_auc] is meant to average, the
    accumulators it registers, and the update operations it groups. *)
Definition task_aucs (auc_stat : list Q → list Q → list Q → Q) (n : nat)
    (labels predictions weights : RTensor) : list Q :=
  map (λ i, auc_stat (col i labels) (col i predictions) (col i weights)) (seq 0 n).

Definition task_inputs (n : nat) (labels predictions weights : RTensor)
    : list (list Q * list Q * list Q) :=
  map (λ i, (col i labels, col i predictions, col i weights)) (seq 0 n).

Definition task_updates (first n : nat) : list ROp :=
  map Update (seq first n).

(** The columns of a matrix rearranged: column [i] of the result is column
    [sigma !! i] of the argument. *)
Definition permute_cols (sigma : list nat) (t : RTensor) : RTensor :=
  match t with
  | RMatrix _ rows => RMatrix (length sigma) (map (λ r, map (λ j, nth j r 0%Q) sigma) rows)
  | _ => t
  end.

(** A world with only [n_tasks] bound and nothing logged. *)
Definition world (n_tasks : Z) (h : RHost) : @World objects :=
  @Build_World objects {["n_tasks" := @VInt objects n_tasks]} h [].

(** The same, after other work: another name bound, calls already logged. *)
Definition world_busy (n_tasks : Z) (h : RHost) : @World objects :=
  @Build_World objects
    (<["n_features" := @VInt objects 1024]> {["n_tasks" := @VInt objects n_tasks]}) h
    [@Build_Event objects (@CLoadTox21 objects) (@Returned objects (@VNone objects))].

(** Example inputs: four samples, two tasks. *)
Definition ex_labels : RTensor := RMatrix 2 [[1; 0]; [0; 1]; [1; 1]; [0; 0]]%Q.
Definition ex_predictions : RTensor :=
  RMatrix 2 [[0.9; 0.1]; [0.2; 0.8]; [0.3; 0.7]; [0.4; 0.7]]%Q.
Definition ex_weights : RTensor := RMatrix 2 [[1; 1]; [1; 1]; [2; 1]; [1; 3]]%Q.
Definition ex_narrow : RTensor := RMatrix 1 [[1]; [0]; [1]; [0]]%Q.
Definition ex_dataset : RDataset :=
  {| n_features := 1; n_labels := 2;
     samples := [([5], [1; 0], [1; 1]); ([6], [0; 1], [1; 1]); ([7], [1; 1], [2; 1])]%Q |}.

(** What [make_iterator] and [get_next] give on the example dataset for two
    epochs. *)
Definition ex_iterator : RIterator :=
  {| it_features := 1; it_labels := 2;
     it_batches := [samples ex_dataset; samples ex_dataset] |}.
Definition ex_batch_x : RTensor := RMatrix 1 [[5]; [6]; [7]]%Q.
Definition ex_batch_y : RTensor := RMatrix 2 [[1; 0]; [0; 1]; [1; 1]]%Q.
Definition ex_batch_w : RTensor := RMatrix 2 [[1; 1]; [1; 1]; [2; 1]]%Q.

(** How many slices iteration [c] asks for before one is out of range, when
    one is: 1 if the labels are too narrow, else 2 if the predictions are,
    else 3. *)
Definition slices_tried (ncl ncp c : nat) : nat :=
  if (c <? ncl)%nat then if (c <? ncp)%nat then 3%nat else 2%nat else 1%nat.

(** Labels with a third column. *)
Definition ex_wide : RTensor := RMatrix 3 [[1; 0; 1]; [0; 1; 1]; [1; 1; 0]; [0; 0; 0]]%Q.

(** An iterator with nothing left, as made for zero epochs. *)
Definition ex_exhausted : RIterator :=
  {| it_features := 1; it_labels := 2; it_batches := [] |}.

End Ref.

(** ** The run recorded in the notebook *)

Module Recorded.

Inductive Split := Train | Valid | Test.

(** The libraries' state is the list of checkpoint files written. *)
Definition objects : Objects := {|
  Host := list string; Dataset := Split; Iterator := unit; Tensor := unit; Op := unit;
  Model := unit; Metric := unit; Column := string * list Z; Estimator := unit;
  Transformers := unit;
|}.

(** The dataset has 12 tasks (the notebook averages "over the 12 tasks
    included in the dataset"); these are their names in Tox21. *)
Definition tox21_tasks : list string :=
  ["NR-AR"; "NR-AR-LBD"; "NR-AhR"; "NR-Aromatase"; "NR-ER"; "NR-ER-LBD";
   "NR-PPAR-gamma"; "SR-ARE"; "SR-ATAD5"; "SR-HSE"; "SR-MMP"; "SR-p53"].

(** Output of cell 2. *)
Definition deepchem_scores : Report :=
  [("mean-roc_auc_score", 0.7611497720178306%Q)].

(** Output of cell 7. *)
Definition estimator_scores : Report :=
  [("loss", 6348.7153%Q); ("mean_auc", 0.7047531%Q); ("global_step", 6300%Q)].

(** The library calls of the cells, replaying what the notebook recorded.
    The number of features is not recorded; 1024 is the loader's default.
    The notebook records no failure; [fit_raises] and [train_raises] give
    the variants in which [model.fit] or [estimator.train] raises. *)
Definition toolkit_with (fit_raises train_raises : option Exn) : @Toolkit objects :=
  @Build_Toolkit objects
    (λ _ h, (inr tt, h))
    (λ h, (inr (tox21_tasks, (Train, Valid, Test), tt), h))
    (λ _ h, (inr 1024, h))
    (λ _ _ _ _ h, (inr tt, h))
    (λ _ _ _ h, (from_option inl (inr tt) fit_raises, h))
    (λ _ _ h, (inr tt, h))
    (λ _ _ _ h, (inr deepchem_scores, h))
    (λ name shape h, (inr (name, shape), h))
    (λ _ _ _ _ _ h, (inr tt, h))
    (λ _ _ h, match train_raises with
              | Some e => (inl e, h)
              | None => (inr tt, h ++ ["estimator/model.ckpt-1"; "estimator/model.ckpt-6300"])
              end)
    (λ _ _ h, (inr estimator_scores, h)).

(** The run recorded: no call raises. *)
Definition toolkit : @Toolkit objects := toolkit_with None None.

(** The world before cell 1: nothing bound, nothing written, nothing logged. *)
Definition fresh : @World objects := @Build_World objects ∅ ([] : list string) [].

(** The files on disk before and after the estimator has been trained. *)
Definition no_files : @Host objects := ([] : list string).
Definition checkpoints : @Host objects :=
  ["estimator/model.ckpt-1"; "estimator/model.ckpt-6300"].

(** A world in which only [import tensorflow as tf] has run. *)
Definition only_tf : @World objects :=
  @Build_World objects {["tf" := @VModule objects "tensorflow"]} ([] : list string) [].

End Recorded.

(** ** Shapes of calls, plans and the properties of computations *)

(** A call with its tensor, dataset and handle arguments erased. *)
Inductive Kind :=
| KMakeIterator (batch_size : Z)
| KGetNext
| KGetItem (i : nat)
| KAuc
| KStack (n : nat)
| KReduceMean
| KGroup (n : nat)
| KLoadTox21
| KXShape1
| KMultitaskClassifier
| KFit (nb_epoch : Z)
| KMetric
| KEvaluate
| KPrint
| KNumericColumn (name : string)
| KMakeEstimator
| KTrain (epochs : Z)
| KEstEvaluate (epochs : Z)
| KImport (name : string).

(** The sequence of calls [input_fn] makes. *)
Definition input_fn_plan : list Kind := [KMakeIterator 100; KGetNext].

(** The sequence of calls [mean_auc] makes when [n_tasks] is [n]. *)
Definition task_plan (i : nat) : list Kind := [KGetItem i; KGetItem i; KGetItem i; KAuc].
Definition loop_plan (idxs : list nat) : list Kind := i ← idxs; task_plan i.
Definition mean_auc_plan (n : nat) : list Kind :=
  loop_plan (seq 0 n) ++ [KStack n; KReduceMean; KGroup n].

(** The sequence of calls the cells make; cells 3 and 5 make none. *)
Definition cell_1_plan : list Kind :=
  [KImport "deepchem"; KImport "tensorflow"; KImport "numpy";
   KLoadTox21; KXShape1; KMultitaskClassifier].
Definition cell_2_plan : list Kind := [KFit 100; KMetric; KEvaluate; KPrint].
Definition cell_4_plan : list Kind := [KNumericColumn "x"; KNumericColumn "weights"].
Definition cell_6_plan : list Kind := [KMakeEstimator].
Definition cell_7_plan : list Kind := [KTrain 100; KEstEvaluate 1; KPrint].
Definition notebook_plan : list Kind :=
  cell_1_plan ++ cell_2_plan ++ cell_4_plan ++ cell_6_plan ++ cell_7_plan.

Section Properties.
Context `{Objects}.

Definition kind (c : Call) : Kind :=
  match c with
  | CMakeIterator _ batch_size _ => KMakeIterator batch_size
  | CGetNext _ => KGetNext
  | CGetItem _ i => KGetItem i
  | CAuc _ _ _ => KAuc
  | CStack values => KStack (length values)
  | CReduceMean _ => KReduceMean
  | CGroup ops => KGroup (length ops)
  | CLoadTox21 => KLoadTox21
  | CXShape1 _ => KXShape1
  | CMultitaskClassifier _ _ _ _ => KMultitaskClassifier
  | CFit _ _ nb_epoch => KFit nb_epoch
  | CMetric _ _ => KMetric
  | CEvaluate _ _ _ => KEvaluate
  | CPrint _ => KPrint
  | CNumericColumn name _ => KNumericColumn name
  | CMakeEstimator _ _ _ _ _ => KMakeEstimator
  | CTrain _ (InputFnClosure _ epochs) => KTrain epochs
  | CEstEvaluate _ (InputFnClosure _ epochs) => KEstEvaluate epochs
  | CImport name => KImport name
  end.

Definition kinds (evs : list Event) : list Kind := map (λ ev, kind (call ev)) evs.

Definition returned (ev : Event) : Prop :=
  match outcome ev with
  | Returned _ => True
  | Raised _ => False
  end.

(** The events of a run in which nothing is caught or retried: every call
    returned, or every call but the last returned and the last raised the
    exception the run ends with. *)
Definition trace_ok {A} (evs : list Event) (r : Res A) : Prop :=
  Forall returned evs ∨
  ∃ pre c e, evs = pre ++ [{| call := c; outcome := Raised e |}] ∧
             Forall returned pre ∧ r = inl e.

Definition disciplined {A} (m : M A) : Prop :=
  ∀ w, ∃ evs, log (m w).2 = log w ++ evs ∧ trace_ok evs (m w).1.

(** [m] makes the calls of [plan], in order, stopping early only if it
    raises; when it returns, the result satisfies [Q]. *)
Definition follows {A} (m : M A) (plan : list Kind) (Q : A → Prop) : Prop :=
  ∀ w, ∃ evs, log (m w).2 = log w ++ evs ∧
    match (m w).1 with
    | inr a => kinds evs = plan ∧ Q a
    | inl _ => kinds evs `prefix_of` plan
    end.

(** [m] leaves the module namespace alone, only appends to the log, and
    its result, its effect on the libraries' state and the calls it makes
    depend on the world only through the libraries' state and the global
    names in [X]. *)
Definition confined {A} (X : list string) (m : M A) : Prop :=
  ∀ w, ∃ r h evs,
    m w = (r, {| globals := globals w; host := h; log := log w ++ evs |}) ∧
    ∀ w2, host w2 = host w → (∀ x, x ∈ X → globals w2 !! x = globals w !! x) →
      m w2 = (r, {| globals := globals w2; host := h; log := log w2 ++ evs |}).

(** A call that returned [v]. *)
Definition ev (c : Call) (v : Value) : Event := {| call := c; outcome := Returned v |}.

(** A call that raised [e]. *)
Definition raised (c : Call) (e : Exn) : Event := {| call := c; outcome := Raised e |}.

(** The events of each cell when every call it makes returns, given what
    the calls returned. *)
Definition cell_1_log (tasks : list string) (train valid test : Dataset)
    (transformers : Transformers) (n_features : Z) (model : Model) : list Event :=
  [ ev (CImport "deepchem") (VModule "deepchem");
    ev (CImport "tensorflow") (VModule "tensorflow");
    ev (CImport "numpy") (VModule "numpy");
    ev CLoadTox21 (VLoaded (tasks, (train, valid, test), transformers));
    ev (CXShape1 train) (VInt n_features);
    ev (CMultitaskClassifier (Z.of_nat (length tasks)) n_features [1000] (1 # 4))
       (VModel model) ].

Definition cell_2_log (model : Model) (train test : Dataset) (metric : Metric)
    (scores : Report) : list Event :=
  [ ev (CFit model train 100) VNone;
    ev (CMetric roc_auc_score np_mean) (VMetric metric);
    ev (CEvaluate model test [metric]) (VReport scores);
    ev (CPrint scores) VNone ].

Definition cell_4_log (n_features n_tasks : Z) (x_col weight_col : Column) : list Event :=
  [ ev (CNumericColumn "x" [n_features]) (VColumn x_col);
    ev (CNumericColumn "weights" [n_tasks]) (VColumn weight_col) ].

Definition cell_6_log (model : Model) (x_col weight_col : Column) (estimator : Estimator)
    : list Event :=
  [ ev (CMakeEstimator model [x_col] weight_col [("mean_auc", MeanAuc)] "estimator")
       (VEstimator estimator) ].

Definition cell_7_log (estimator : Estimator) (train test : Dataset) (scores : Report)
    : list Event :=
  [ ev (CTrain estimator (InputFnClosure train 100)) VNone;
    ev (CEstEvaluate estimator (InputFnClosure test 1)) (VReport scores);
    ev (CPrint scores) VNone ].

(** The events of the cells up to cell 6. *)
Definition setup_log (tasks : list string) (train valid test : Dataset)
    (transformers : Transformers) (n_features : Z) (model : Model) (metric : Metric)
    (scores_1 : Report) (x_col weight_col : Column) (estimator : Estimator) : list Event :=
  cell_1_log tasks train valid test transformers n_features model ++
  cell_2_log model train test metric scores_1 ++
  cell_4_log n_features (Z.of_nat (length tasks)) x_col weight_col ++
  cell_6_log model x_col weight_col estimator.

(** The events of a run of the notebook in which every call returns. *)
Definition notebook_log (tasks : list string) (train valid test : Dataset)
    (transformers : Transformers) (n_features : Z) (model : Model) (metric : Metric)
    (scores_1 : Report) (x_col weight_col : Column) (estimator : Estimator)
    (scores_2 : Report) : list Event :=
  setup_log tasks train valid test transformers n_features model metric scores_1
    x_col weight_col estimator ++
  cell_7_log estimator train test scores_2.

(** "... and finally prints the resulting metrics": in the events of a run
    nothing but printing comes after a [print]. *)
Definition is_print (e : Event) : Prop :=
  match call e with
  | CPrint _ => True
  | _ => False
  end.

Definition prints_come_last (evs : list Event) : Prop :=
  ∀ i j e1 e2, evs !! i = Some e1 → evs !! j = Some e2 → (i < j)%nat →
    is_print e1 → is_print e2.

(** The invariant of the loop of [mean_auc]: after [j] iterations both
    local lists hold [j] entries. *)
Definition lengths (j : nat) (st : list Tensor * list Op) : Prop :=
  length st.1 = j ∧ length st.2 = j.

(** The calls [m] makes when run from [w], and the events it logs. *)
Definition events_of {A} (m : M A) (w : World) : list Event :=
  drop (length (log w)) (log (m w).2).

Definition calls_made {A} (m : M A) (w : World) : list Kind :=
  kinds (events_of m w).

Definition returns {A} (m : M A) (w : World) : Prop :=
  match (m w).1 with
  | inr _ => True
  | inl _ => False
  end.

(** What the calls of one iteration of the loop of [mean_auc] returned: the
    three slices, then the metric and its update. *)
Definition TaskResult : Type := Tensor * Tensor * Tensor * (Tensor * Op).

(** The events of iteration [i], given what its calls returned. *)
Definition task_events (labels predictions weights : Tensor) (i : nat) (r : TaskResult)
    : list Event :=
  let '(l, p, w, mo) := r in
  [ ev (CGetItem labels i) (VTensor l);
    ev (CGetItem predictions i) (VTensor p);
    ev (CGetItem weights i) (VTensor w);
    ev (CAuc l p w) (VMetricOps mo) ].

(** The events of the iterations [i], [i+1], ... *)
Fixpoint loop_events (labels predictions weights : Tensor) (i : nat) (rs : list TaskResult)
    : list Event :=
  match rs with
  | [] => []
  | r :: rest =>
      task_events labels predictions weights i r ++
      loop_events labels predictions weights (S i) rest
  end.

(** The events of a run of [mean_auc] in which every call returns. *)
Definition mean_auc_log (labels predictions weights : Tensor) (rs : list TaskResult)
    (stacked mean_metric : Tensor) (update_all : Op) : list Event :=
  loop_events labels predictions weights 0 rs ++
  [ ev (CStack (map (λ r, r.2.1) rs)) (VTensor stacked);
    ev (CReduceMean stacked) (VTensor mean_metric);
    ev (CGroup (map (λ r, r.2.2) rs)) (VOp update_all) ].

(** The integer a value is, if it is one. *)
Definition as_int (v : Value) : option Z :=
  match v with
  | VInt z => Some z
  | _ => None
  end.

(** The names the cells bind, in the order they bind them. *)
Definition notebook_names : list string :=
  ["dc"; "tf"; "np"; "tasks"; "datasets"; "transformers"; "train_dataset"; "valid_dataset";
   "test_dataset"; "n_tasks"; "n_features"; "model"; "metric"; "input_fn"; "x_col";
   "weight_col"; "mean_auc"; "estimator"].

(** The namespace cell 1 leaves when it returns, given the namespace before
    and what its calls returned. *)
Definition namespace_1 (before : gmap string Value) (tasks : list string)
    (train valid test : Dataset) (transformers : Transformers) (n_features : Z)
    (model : Model) : gmap string Value :=
  <["model" := VModel model]>
  (<["n_features" := VInt n_features]>
  (<["n_tasks" := VInt (Z.of_nat (length tasks))]>
  (<["test_dataset" := VDataset test]>
  (<["valid_dataset" := VDataset valid]>
  (<["train_dataset" := VDataset train]>
  (<["transformers" := VTransformers transformers]>
  (<["datasets" := VDatasets (train, valid, test)]>
  (<["tasks" := VStrs tasks]>
  (<["np" := VModule "numpy"]>
  (<["tf" := VModule "tensorflow"]>
  (<["dc" := VModule "deepchem"]> before))))))))))).

(** The namespace after cell 6. *)
Definition setup_namespace (before : gmap string Value) (tasks : list string)
    (train valid test : Dataset) (transformers : Transformers) (n_features : Z)
    (model : Model) (metric : Metric) (x_col weight_col : Column) (estimator : Estimator)
    : gmap string Value :=
  <["estimator" := VEstimator estimator]>
  (<["mean_auc" := VMetricFn MeanAuc]>
  (<["weight_col" := VColumn weight_col]>
  (<["x_col" := VColumn x_col]>
  (<["input_fn" := VInputFn]>
  (<["metric" := VMetric metric]>
  (namespace_1 before tasks train valid test transformers n_features model)))))).

(** The namespace a completed run of the notebook leaves: cell 7 binds
    nothing. *)
Definition notebook_namespace (before : gmap string Value) (tasks : list string)
    (train valid test : Dataset) (transformers : Transformers) (n_features : Z)
    (model : Model) (metric : Metric) (x_col weight_col : Column) (estimator : Estimator)
    : gmap string Value :=
  setup_namespace before tasks train valid test transformers n_features model metric
    x_col weight_col estimator.







(** Run from [w1] or from [w2], [m] leaves the module namespace as it was,
    only appends to the log, and returns the same result, leaves the same
    library state and makes the same calls. *)
Definition acts_alike {A} (m : M A) (w1 w2 : World) : Prop :=
  globals (m w1).2 = globals w1 ∧ log (m w1).2 = log w1 ++ events_of m w1 ∧
  (m w1).1 = (m w2).1 ∧ host (m w1).2 = host (m w2).2 ∧
  events_of m w1 = events_of m w2.

(** The calls of two runs are initial segments of [plan], and all of [plan]
    when both runs return. *)
Definition same_calls {A B} (m1 : M A) (w1 : World) (m2 : M B) (w2 : World)
    (plan : list Kind) : Prop :=
  calls_made m1 w1 `prefix_of` plan ∧ calls_made m2 w2 `prefix_of` plan ∧
  (returns m1 w1 → returns m2 w2 →
   calls_made m1 w1 = plan ∧ calls_made m2 w2 = plan ∧
   calls_made m1 w1 = calls_made m2 w2).

End Properties.

(** ** What it is for the calls of a run to return

    Each predicate says that the library calls of a piece of the notebook,
    applied in order, each to the library state the one before it left,
    return the values named. *)

Section AdapterCalls.
Context `{Library}.

(** Iteration [i] of the loop of [mean_auc], started on the library state
    [h]: the three slices, then [tf.metrics.auc] on them. *)
Definition task_returns (labels predictions weights : Tensor) (i : nat) (h : Host)
    (r : TaskResult) (h' : Host) : Prop :=
  ∃ h1 h2 h3,
    getitem_col labels i h = (inr r.1.1.1, h1) ∧
    getitem_col predictions i h1 = (inr r.1.1.2, h2) ∧
    getitem_col weights i h2 = (inr r.1.2, h3) ∧
    metrics_auc r.1.1.1 r.1.1.2 r.1.2 h3 = (inr r.2, h').

(** The iterations [i], [i+1], ... *)
Fixpoint loop_returns (labels predictions weights : Tensor) (i : nat) (h : Host)
    (rs : list TaskResult) (h' : Host) : Prop :=
  match rs with
  | [] => h' = h
  | r :: rest =>
      ∃ hm, task_returns labels predictions weights i h r hm ∧
            loop_returns labels predictions weights (S i) hm rest h'
  end.

(** The loop, then [tf.stack] on the metrics, [tf.reduce_mean] on what
    [tf.stack] returned and [tf.group] on the updates. *)
Definition mean_auc_returns (labels predictions weights : Tensor) (h : Host)
    (rs : list TaskResult) (stacked mean_metric : Tensor) (update_all : Op) (h' : Host)
    : Prop :=
  ∃ h1 h2 h3,
    loop_returns labels predictions weights 0 h rs h1 ∧
    stack (map (λ r, r.2.1) rs) h1 = (inr stacked, h2) ∧
    reduce_mean stacked h2 = (inr mean_metric, h3) ∧
    group (map (λ r, r.2.2) rs) h3 = (inr update_all, h').

End AdapterCalls.

Section NotebookCalls.
Context `{Toolkit}.

(** Cell 1: the three imports, the loader, the width of the training set
    and the classifier built for that many tasks and features. *)
Definition cell_1_calls (h : Host) (tasks : list string) (train valid test : Dataset)
    (transformers : Transformers) (n_features : Z) (model : Model) (h' : Host) : Prop :=
  ∃ h1 h2 h3 h4 h5,
    import_module "deepchem" h = (inr tt, h1) ∧
    import_module "tensorflow" h1 = (inr tt, h2) ∧
    import_module "numpy" h2 = (inr tt, h3) ∧
    load_tox21 h3 = (inr (tasks, (train, valid, test), transformers), h4) ∧
    X_shape_1 train h4 = (inr n_features, h5) ∧
    MultitaskClassifier (Z.of_nat (length tasks)) n_features [1000] (1 # 4) h5 =
      (inr model, h').

(** Cell 2: fit on the training set, then build the metric, then evaluate
    on the test set. *)
Definition cell_2_calls (h : Host) (model : Model) (train test : Dataset) (metric : Metric)
    (scores : Report) (h' : Host) : Prop :=
  ∃ h1 h2,
    fit model train 100 h = (inr tt, h1) ∧
    dc_Metric roc_auc_score np_mean h1 = (inr metric, h2) ∧
    evaluate model test [metric] h2 = (inr scores, h').

(** Cell 4: the column named ['x'], then the column named ['weights']. *)
Definition cell_4_calls (h : Host) (n_features n_tasks : Z) (x_col weight_col : Column)
    (h' : Host) : Prop :=
  ∃ h1,
    numeric_column "x" [n_features] h = (inr x_col, h1) ∧
    numeric_column "weights" [n_tasks] h1 = (inr weight_col, h').

(** Cell 6: the estimator made from the model and the two columns. *)
Definition cell_6_calls (h : Host) (model : Model) (x_col weight_col : Column)
    (estimator : Estimator) (h' : Host) : Prop :=
  make_estimator model [x_col] weight_col [("mean_auc", MeanAuc)] "estimator" h =
    (inr estimator, h').

(** Cell 7: train through [input_fn] on the training set for 100 epochs,
    then evaluate through [input_fn] on one pass of the test set. *)
Definition cell_7_calls (h : Host) (estimator : Estimator) (train test : Dataset)
    (scores : Report) (h' : Host) : Prop :=
  ∃ h1,
    estimator_train estimator (InputFnClosure train 100) h = (inr tt, h1) ∧
    estimator_evaluate estimator (InputFnClosure test 1) h1 = (inr scores, h').

(** The cells up to cell 6, and the whole notebook. *)
Definition setup_calls (h : Host) (tasks : list string) (train valid test : Dataset)
    (transformers : Transformers) (n_features : Z) (model : Model) (metric : Metric)
    (scores_1 : Report) (x_col weight_col : Column) (estimator : Estimator) (h' : Host)
    : Prop :=
  ∃ h1 h2 h4,
    cell_1_calls h tasks train valid test transformers n_features model h1 ∧
    cell_2_calls h1 model train test metric scores_1 h2 ∧
    cell_4_calls h2 n_features (Z.of_nat (length tasks)) x_col weight_col h4 ∧
    cell_6_calls h4 model x_col weight_col estimator h'.

Definition notebook_calls (h : Host) (tasks : list string) (train valid test : Dataset)
    (transformers : Transformers) (n_features : Z) (model : Model) (metric : Metric)
    (scores_1 : Report) (x_col weight_col : Column) (estimator : Estimator)
    (scores_2 : Report) (h' : Host) : Prop :=
  ∃ h6,
    setup_calls h tasks train valid test transformers n_features model metric scores_1
      x_col weight_col estimator h6 ∧
    cell_7_calls h6 estimator train test scores_2 h'.

End NotebookCalls.

(** * Theorems *)

(** ** How the three properties compose *)

Section Closure.
Context `{Objects}.

Lemma bind_run {A B} (m : M A) (k : A → M B) (w : World) :
  (m ≫= k) w = match m w with
               | (inl e, w') => (inl e, w')
               | (inr a, w') => k a w'
               end.
Proof. reflexivity. Qed.

Lemma bind_invoke_ok {A B} (c : Call) (show : A → Value) (f : Host → Res A * Host)
    (k : A → M B) (w : World) (a : A) (h : Host) :
  f (host w) = (inr a, h) →
  (invoke c show f ≫= k) w =
    k a {| globals := globals w; host := h;
           log := log w ++ [{| call := c; outcome := Returned (show a) |}] |}.
Proof. intros Hf. rewrite bind_run. unfold invoke. by rewrite Hf. Qed.

Lemma bind_invoke_raise {A B} (c : Call) (show : A → Value) (f : Host → Res A * Host)
    (k : A → M B) (w : World) (e : Exn) (h : Host) :
  f (host w) = (inl e, h) →
  (invoke c show f ≫= k) w =
    (inl e, {| globals := globals w; host := h;
               log := log w ++ [{| call := c; outcome := Raised e |}] |}).
Proof. intros Hf. rewrite bind_run. unfold invoke. by rewrite Hf. Qed.

Lemma invoke_bind_inv {A B} (c : Call) (show : A → Value) (f : Host → Res A * Host)
    (k : A → M B) (w w' : World) (b : B) :
  (invoke c show f ≫= k) w = (inr b, w') →
  ∃ a h, f (host w) = (inr a, h) ∧
         k a {| globals := globals w; host := h; log := log w ++ [ev c (show a)] |} =
           (inr b, w').
Proof.
  rewrite bind_run. unfold invoke. destruct (f (host w)) as [[e | a] h]; [done |].
  intros Hk. by exists a, h.
Qed.

Lemma bind_inv {A B} (m : M A) (k : A → M B) (w w' : World) (b : B) :
  (m ≫= k) w = (inr b, w') → ∃ a w1, m w = (inr a, w1) ∧ k a w1 = (inr b, w').
Proof.
  rewrite bind_run. destruct (m w) as [[e | a] w1]; [done |]. intros Hk. by exists a, w1.
Qed.

Lemma assign_bind {B} (x : string) (v : Value) (k : unit → M B) (w : World) :
  (assign x v ≫= k) w =
    k tt {| globals := <[x := v]> (globals w); host := host w; log := log w |}.
Proof. reflexivity. Qed.

Lemma for_each_cons {S} (body : nat → S → M S) (i : nat) (idxs : list nat) (st : S)
    (w : World) :
  for_each body (i :: idxs) st w =
    match body i st w with
    | (inl e, w') => (inl e, w')
    | (inr st', w') => for_each body idxs st' w'
    end.
Proof. reflexivity. Qed.

Lemma for_each_app {S} (body : nat → S → M S) (idxs1 idxs2 : list nat) (st : S) (w : World) :
  for_each body (idxs1 ++ idxs2) st w = (for_each body idxs1 st ≫= for_each body idxs2) w.
Proof.
  revert st w. induction idxs1 as [|i idxs1 IH]; intros st w; simpl; [done |].
  rewrite !bind_run. unfold bind. destruct (body i st w) as [[e | st'] w']; [done |].
  by rewrite IH, bind_run.
Qed.

Lemma trace_ok_returned {A} (evs : list Event) (a : A) :
  trace_ok evs (inr a : Res A) → Forall returned evs.
Proof. intros [Hall | (pre & c & e & _ & _ & Hr)]; [done | discriminate Hr]. Qed.

Lemma trace_ok_retype {A B} (evs : list Event) (e : Exn) :
  trace_ok evs (inl e : Res A) → trace_ok evs (inl e : Res B).
Proof.
  intros [Hall | (pre & c & e' & Hevs & Hpre & Hr)]; [by left | right].
  exists pre, c, e'. repeat split; [done .. | congruence].
Qed.

Lemma trace_ok_app {A} (evs1 evs2 : list Event) (r : Res A) :
  Forall returned evs1 → trace_ok evs2 r → trace_ok (evs1 ++ evs2) r.
Proof.
  intros H1 [H2 | (pre & c & e & Hevs & Hpre & Hr)].
  - left. by apply Forall_app.
  - right. exists (evs1 ++ pre), c, e. subst evs2. rewrite <- app_assoc.
    repeat split; [by apply Forall_app | done].
Qed.

(** A raised call is the last event of a disciplined run and decides its
    result. *)
Lemma trace_ok_raised {A} (evs pre post : list Event) (c : Call) (e : Exn) (r : Res A) :
  trace_ok evs r → evs = pre ++ {| call := c; outcome := Raised e |} :: post →
  post = [] ∧ r = inl e.
Proof.
  intros [Hall | (pre' & c' & e' & Hevs & Hpre & Hr)] ->.
  - apply Forall_app in Hall as [_ Hall]. by inversion Hall.
  - destruct post as [|ev post _] using rev_ind.
    + apply app_inj_tail in Hevs as [_ Hev]. by inversion Hev; subst.
    + rewrite app_comm_cons, app_assoc in Hevs.
      apply app_inj_tail in Hevs as [<- _].
      apply Forall_app in Hpre as [_ Hpre]. by inversion Hpre.
Qed.

Lemma disciplined_ret {A} (a : A) : disciplined (mret a : M A).
Proof. intros w. exists []. split; [by rewrite app_nil_r | by left]. Qed.

Lemma disciplined_raise {A} (e : Exn) : disciplined (raise e : M A).
Proof. intros w. exists []. split; [by rewrite app_nil_r | by left]. Qed.

Lemma disciplined_read (x : string) : disciplined (read x).
Proof.
  intros w. exists []. unfold read. destruct (globals w !! x);
    (split; [by rewrite app_nil_r | by left]).
Qed.

Lemma disciplined_assign (x : string) (v : Value) : disciplined (assign x v).
Proof. intros w. exists []. split; [by rewrite app_nil_r | by left]. Qed.

Lemma disciplined_invoke {A} (c : Call) (show : A → Value) (f : Host → Res A * Host) :
  disciplined (invoke c show f).
Proof.
  intros w. unfold invoke. destruct (f (host w)) as [[e | a] h]; simpl.
  - eexists. split; [done |]. right. exists [], c, e. by repeat split.
  - eexists. split; [done |]. left. by repeat constructor.
Qed.

Lemma disciplined_bind {A B} (m : M A) (k : A → M B) :
  disciplined m → (∀ a, disciplined (k a)) → disciplined (m ≫= k).
Proof.
  intros Hm Hk w. rewrite bind_run.
  destruct (Hm w) as (evs1 & Hlog1 & Hok1). destruct (m w) as [[e | a] w1]; simpl in *.
  - exists evs1. split; [done | by apply (trace_ok_retype (A:=A))].
  - destruct (Hk a w1) as (evs2 & Hlog2 & Hok2). exists (evs1 ++ evs2).
    split; [by rewrite Hlog2, Hlog1, app_assoc |].
    apply trace_ok_app; [by apply (trace_ok_returned _ a) | done].
Qed.

Lemma disciplined_for_each {S} (body : nat → S → M S) (idxs : list nat) (st : S) :
  (∀ i s, disciplined (body i s)) → disciplined (for_each body idxs st).
Proof.
  intros Hbody. revert st. induction idxs as [|i idxs IH]; intros st; simpl.
  - apply (disciplined_ret st).
  - apply (disciplined_bind (body i st) (for_each body idxs)); auto.
Qed.

Lemma follows_weaken {A} (m : M A) (plan : list Kind) (Q Q' : A → Prop) :
  follows m plan Q → (∀ a, Q a → Q' a) → follows m plan Q'.
Proof.
  intros Hm HQ w. destruct (Hm w) as (evs & Hlog & Hres). exists evs. split; [done |].
  destruct (m w) as [[e | a] w1]; simpl in *; [done |].
  destruct Hres as [Hk HQa]. split; auto.
Qed.

Lemma follows_ret {A} (a : A) : follows (mret a : M A) [] (λ a', a' = a).
Proof. intros w. exists []. split; [by rewrite app_nil_r | by split]. Qed.

Lemma follows_raise {A} (e : Exn) (Q : A → Prop) : follows (raise e : M A) [] Q.
Proof. intros w. exists []. split; [by rewrite app_nil_r | apply prefix_nil]. Qed.

Lemma follows_assign (x : string) (v : Value) : follows (assign x v) [] (λ _, True).
Proof. intros w. exists []. split; [by rewrite app_nil_r | by split]. Qed.

Lemma follows_invoke {A} (c : Call) (show : A → Value) (f : Host → Res A * Host) :
  follows (invoke c show f) [kind c] (λ _, True).
Proof.
  intros w. unfold invoke. destruct (f (host w)) as [[e | a] h]; simpl.
  - eexists. split; [done | apply prefix_cons, prefix_nil].
  - eexists. split; [done | by split].
Qed.

Lemma follows_bind {A B} (m : M A) (k : A → M B) (p1 p2 : list Kind)
    (Q : A → Prop) (R : B → Prop) :
  follows m p1 Q → (∀ a, Q a → follows (k a) p2 R) → follows (m ≫= k) (p1 ++ p2) R.
Proof.
  intros Hm Hk w. rewrite bind_run.
  destruct (Hm w) as (evs1 & Hlog1 & Hres1). destruct (m w) as [[e | a] w1]; simpl in *.
  - exists evs1. split; [done | by apply prefix_app_r].
  - destruct Hres1 as [Hk1 HQ]. destruct (Hk a HQ w1) as (evs2 & Hlog2 & Hres2).
    exists (evs1 ++ evs2). split; [by rewrite Hlog2, Hlog1, app_assoc |].
    unfold kinds in *. rewrite map_app, Hk1.
    destruct ((k a w1).1); [by apply prefix_app |].
    destruct Hres2 as [-> HR]. by split.
Qed.

Lemma follows_invoke_bind {A B} (c : Call) (show : A → Value) (f : Host → Res A * Host)
    (k : A → M B) (plan : list Kind) (R : B → Prop) :
  (∀ a, follows (k a) plan R) → follows (invoke c show f ≫= k) (kind c :: plan) R.
Proof.
  intros Hk. apply (follows_bind _ _ [kind c] plan (λ _, True));
    [apply follows_invoke | auto].
Qed.

Lemma follows_silent_bind {A B} (m : M A) (k : A → M B) (plan : list Kind) (R : B → Prop) :
  follows m [] (λ _, True) → (∀ a, follows (k a) plan R) → follows (m ≫= k) plan R.
Proof. intros Hm Hk. apply (follows_bind _ _ [] plan (λ _, True)); auto. Qed.

Lemma follows_done {A} (a : A) : follows (mret a : M A) [] (λ _, True).
Proof. eapply follows_weaken; [apply follows_ret | done]. Qed.

Lemma follows_read (x : string) : follows (read x) [] (λ _, True).
Proof.
  intros w. exists []. unfold read. destruct (globals w !! x); simpl;
    (split; [by rewrite app_nil_r |]); [by split | apply prefix_nil].
Qed.

Lemma follows_range (x : string) (v : Value) :
  follows (range x v) [] (λ idxs, ∃ n, v = VInt n ∧ idxs = seq 0 (Z.to_nat n)).
Proof.
  destruct v; try apply follows_raise.
  eapply follows_weaken; [apply follows_ret |]. intros idxs ->. by eexists.
Qed.

(** A loop whose body follows [pb i] and steps the invariant [I] follows
    the concatenation of the bodies' plans. *)
Lemma follows_for_each {S} (body : nat → S → M S) (pb : nat → list Kind)
    (I : nat → S → Prop) (idxs : list nat) (st : S) (j : nat) :
  (∀ i s j, I j s → follows (body i s) (pb i) (I (Datatypes.S j))) →
  I j st → follows (for_each body idxs st) (idxs ≫= pb) (I (j + length idxs)%nat).
Proof.
  intros Hbody. revert st j. induction idxs as [|i idxs IH]; intros st j HI; simpl.
  - eapply follows_weaken; [apply (follows_ret st) |]. intros s ->.
    by rewrite Nat.add_0_r.
  - apply (follows_bind (body i st) (for_each body idxs) (pb i) (idxs ≫= pb)
             (I (Datatypes.S j))); [by apply Hbody |].
    intros s Hs. replace (j + Datatypes.S (length idxs))%nat
      with (Datatypes.S j + length idxs)%nat by lia. by apply IH.
Qed.

Lemma confined_ret {A} (X : list string) (a : A) : confined X (mret a : M A).
Proof.
  intros w. exists (inr a), (host w), []. split.
  - rewrite app_nil_r. by destruct w.
  - intros w2 <- _. rewrite app_nil_r. by destruct w2.
Qed.

Lemma confined_raise {A} (X : list string) (e : Exn) : confined X (raise e : M A).
Proof.
  intros w. exists (inl e), (host w), []. split.
  - rewrite app_nil_r. by destruct w.
  - intros w2 <- _. rewrite app_nil_r. by destruct w2.
Qed.

Lemma confined_read (X : list string) (x : string) : x ∈ X → confined X (read x).
Proof.
  intros Hx w. unfold read.
  exists (match globals w !! x with Some v => inr v | None => inl (NameError x) end),
    (host w), [].
  split.
  - rewrite app_nil_r. by destruct w, (_ !! x).
  - intros w2 <- Hg. rewrite app_nil_r, (Hg x Hx). by destruct w2, (_ !! x).
Qed.

Lemma confined_invoke {A} (X : list string) (c : Call) (show : A → Value)
    (f : Host → Res A * Host) :
  confined X (invoke c show f).
Proof.
  intros w. unfold invoke. destruct (f (host w)) as [r h] eqn:Hf.
  exists r, h, [{| call := c; outcome := outcome_of show r |}]. split; [done |].
  intros w2 Hh _. by rewrite Hh, Hf.
Qed.

Lemma confined_bind {A B} (X : list string) (m : M A) (k : A → M B) :
  confined X m → (∀ a, confined X (k a)) → confined X (m ≫= k).
Proof.
  intros Hm Hk w. destruct (Hm w) as (r & h & evs & Hrun & Hany).
  destruct r as [e | a].
  - exists (inl e), h, evs. split; [by rewrite bind_run, Hrun |].
    intros w2 Hh Hg. by rewrite bind_run, (Hany w2 Hh Hg).
  - destruct (Hk a {| globals := globals w; host := h; log := log w ++ evs |})
      as (r2 & h2 & evs2 & Hrun2 & Hany2); simpl in *.
    exists r2, h2, (evs ++ evs2). split.
    + by rewrite bind_run, Hrun, Hrun2, app_assoc.
    + intros w2 Hh Hg. rewrite bind_run, (Hany w2 Hh Hg).
      rewrite (Hany2 {| globals := globals w2; host := h; log := log w2 ++ evs |});
        simpl; [by rewrite app_assoc | done | done].
Qed.

(** What confinement gives for two worlds that agree on the libraries'
    state and on the names in [X]. *)
Lemma confined_local {A} (X : list string) (m : M A) (w1 w2 : World) :
  confined X m → host w1 = host w2 →
  (∀ x, x ∈ X → globals w1 !! x = globals w2 !! x) →
  acts_alike m w1 w2.
Proof.
  intros Hm Hh Hg. destruct (Hm w1) as (r & h & evs & Hrun & Hany).
  assert (Hrun2 := Hany w2 (eq_sym Hh) (λ x Hx, eq_sym (Hg x Hx))).
  unfold acts_alike, events_of. rewrite Hrun, Hrun2. simpl. by rewrite !drop_app_length.
Qed.

Lemma follows_calls_made {A} (m : M A) (plan : list Kind) (Q : A → Prop) (w : World) :
  follows m plan Q →
  calls_made m w `prefix_of` plan ∧ (returns m w → calls_made m w = plan).
Proof.
  intros Hm. destruct (Hm w) as (evs & Hlog & Hres).
  unfold calls_made, returns, events_of. rewrite Hlog, drop_app_length.
  destruct ((m w).1) as [e | a]; [by split | destruct Hres as [-> _]; by split].
Qed.

Lemma disciplined_events {A} (m : M A) (w : World) :
  disciplined m →
  log (m w).2 = log w ++ events_of m w ∧ trace_ok (events_of m w) (m w).1.
Proof.
  intros Hm. destruct (Hm w) as (evs & Hlog & Hok).
  unfold events_of. by rewrite Hlog, drop_app_length.
Qed.

Lemma confined_for_each {S} (X : list string) (body : nat → S → M S)
    (idxs : list nat) (st : S) :
  (∀ i s, confined X (body i s)) → confined X (for_each body idxs st).
Proof.
  intros Hbody. revert st. induction idxs as [|i idxs IH]; intros st; simpl.
  - apply (confined_ret X st).
  - apply (confined_bind X (body i st) (for_each body idxs)); auto.
Qed.

End Closure.

(** ** The two functions, over any library *)

Section AdapterProperties.
Context `{Library}.

Lemma read_bound {A} (x : string) (v : Value) (k : Value → M A) (w : World) :
  globals w !! x = Some v → (read x ≫= k) w = k v w.
Proof. intros Hx. rewrite bind_run. unfold read. by rewrite Hx. Qed.

(** [mean_auc] once [n_tasks] has been read. *)
Lemma mean_auc_unfold (labels predictions weights : Tensor) (w : World) (n : Z) :
  globals w !! "n_tasks" = Some (VInt n) →
  mean_auc labels predictions weights w =
    match for_each (mean_auc_body labels predictions weights) (seq 0 (Z.to_nat n))
            ([], []) w with
    | (inl e, w') => (inl e, w')
    | (inr (metric_ops, update_ops), w') =>
        (stacked ← invoke (CStack metric_ops) VTensor (stack metric_ops);
         mean_metric ← invoke (CReduceMean stacked) VTensor (reduce_mean stacked);
         update_all ← invoke (CGroup update_ops) VOp (group update_ops);
         mret (mean_metric, update_all)) w'
    end.
Proof.
  intros Hn. unfold mean_auc. rewrite (read_bound _ _ _ _ Hn).
  unfold range. rewrite bind_run. unfold mret at 1, M_ret at 1, ret at 1.
  rewrite bind_run.
  by destruct (for_each _ _ _ w) as [[e | [metric_ops update_ops]] w'].
Qed.

Lemma events_of_log {A} (m : M A) (w : World) (evs : list Event) :
  log (m w).2 = log w ++ evs → events_of m w = evs.
Proof. intros Hlog. unfold events_of. by rewrite Hlog, drop_app_length. Qed.

Lemma input_fn_disciplined (dataset : Dataset) (epochs : Z) :
  disciplined (input_fn dataset epochs).
Proof.
  unfold input_fn. apply disciplined_bind; [apply disciplined_invoke | intros it].
  apply disciplined_bind; [apply disciplined_invoke | intros [[x y] weights]].
  apply disciplined_ret.
Qed.

Lemma mean_auc_body_disciplined (labels predictions weights : Tensor) (i : nat)
    (st : list Tensor * list Op) :
  disciplined (mean_auc_body labels predictions weights i st).
Proof.
  destruct st as [metric_ops update_ops]. unfold mean_auc_body.
  do 3 (apply disciplined_bind; [apply disciplined_invoke | intros ?]).
  apply disciplined_bind; [apply disciplined_invoke | intros [metric update]].
  apply disciplined_ret.
Qed.

Lemma mean_auc_disciplined (labels predictions weights : Tensor) :
  disciplined (mean_auc labels predictions weights).
Proof.
  unfold mean_auc. apply disciplined_bind; [apply disciplined_read | intros v].
  apply disciplined_bind.
  { destruct v; first [apply disciplined_raise | apply disciplined_ret]. }
  intros idxs. apply disciplined_bind.
  { apply disciplined_for_each. apply mean_auc_body_disciplined. }
  intros [metric_ops update_ops].
  do 3 (apply disciplined_bind; [apply disciplined_invoke | intros ?]).
  apply disciplined_ret.
Qed.

Lemma input_fn_confined (dataset : Dataset) (epochs : Z) :
  confined [] (input_fn dataset epochs).
Proof.
  unfold input_fn. apply confined_bind; [apply confined_invoke | intros it].
  apply confined_bind; [apply confined_invoke | intros [[x y] weights]].
  apply confined_ret.
Qed.

Lemma mean_auc_confined (labels predictions weights : Tensor) :
  confined ["n_tasks"] (mean_auc labels predictions weights).
Proof.
  unfold mean_auc. apply confined_bind; [apply confined_read; set_solver | intros v].
  apply confined_bind.
  { destruct v; first [apply confined_raise | apply confined_ret]. }
  intros idxs. apply confined_bind.
  { apply confined_for_each. intros i [metric_ops update_ops]. unfold mean_auc_body.
    do 3 (apply confined_bind; [apply confined_invoke | intros ?]).
    apply confined_bind; [apply confined_invoke | intros [metric update]].
    apply confined_ret. }
  intros [metric_ops update_ops].
  do 3 (apply confined_bind; [apply confined_invoke | intros ?]).
  apply confined_ret.
Qed.

Lemma input_fn_follows (dataset : Dataset) (epochs : Z) :
  follows (input_fn dataset epochs) input_fn_plan (λ _, True).
Proof.
  unfold input_fn, input_fn_plan.
  apply (follows_bind _ _ [KMakeIterator 100] [KGetNext] (λ _, True));
    [apply follows_invoke | intros it _].
  apply (follows_bind _ _ [KGetNext] [] (λ _, True));
    [apply follows_invoke | intros [[x y] weights] _].
  eapply follows_weaken; [apply follows_ret | done].
Qed.

Lemma mean_auc_body_follows (labels predictions weights : Tensor) (i : nat)
    (st : list Tensor * list Op) (j : nat) :
  lengths j st →
  follows (mean_auc_body labels predictions weights i st) (task_plan i) (lengths (S j)).
Proof.
  destruct st as [metric_ops update_ops]. intros [Hm Hu]; simpl in *.
  unfold mean_auc_body, task_plan.
  apply (follows_bind _ _ [KGetItem i] [KGetItem i; KGetItem i; KAuc] (λ _, True));
    [apply follows_invoke | intros l _].
  apply (follows_bind _ _ [KGetItem i] [KGetItem i; KAuc] (λ _, True));
    [apply follows_invoke | intros p _].
  apply (follows_bind _ _ [KGetItem i] [KAuc] (λ _, True));
    [apply follows_invoke | intros w _].
  apply (follows_bind _ _ [KAuc] [] (λ _, True));
    [apply follows_invoke | intros [metric update] _].
  eapply follows_weaken; [apply follows_ret |]. intros st ->.
  split; simpl; rewrite length_app; simpl; lia.
Qed.

(** The calls of [mean_auc] are those of [mean_auc_plan n], where [n] is the
    value of the global [n_tasks]. *)
Lemma mean_auc_follows (labels predictions weights : Tensor) (w : World) (n : Z) :
  globals w !! "n_tasks" = Some (VInt n) →
  ∃ evs, log (mean_auc labels predictions weights w).2 = log w ++ evs ∧
    match (mean_auc labels predictions weights w).1 with
    | inr _ => kinds evs = mean_auc_plan (Z.to_nat n)
    | inl _ => kinds evs `prefix_of` mean_auc_plan (Z.to_nat n)
    end.
Proof.
  intros Hn. unfold mean_auc. rewrite (read_bound _ _ _ _ Hn). simpl.
  match goal with |- context [ (?m w).2 ] =>
    assert (F : follows m (mean_auc_plan (Z.to_nat n)) (λ _, True)) end.
  { unfold mean_auc_plan.
    apply (follows_bind _ _ [] _ (λ idxs, idxs = seq 0 (Z.to_nat n))).
    { eapply follows_weaken; [apply follows_ret | done]. }
    intros idxs ->.
    apply (follows_bind _ _ (loop_plan (seq 0 (Z.to_nat n))) _ (lengths (Z.to_nat n))).
    { pose proof (follows_for_each (mean_auc_body labels predictions weights)
                    task_plan lengths (seq 0 (Z.to_nat n)) ([], []) 0) as F.
      rewrite length_seq in F. apply F; [| done].
      intros i s j. apply mean_auc_body_follows. }
    intros [metric_ops update_ops] [Hm Hu]; simpl in *.
    apply (follows_bind _ _ [KStack (Z.to_nat n)] [KReduceMean; KGroup (Z.to_nat n)]
             (λ _, True)).
    { rewrite <- Hm. apply (follows_invoke (CStack metric_ops)). }
    intros stacked _.
    apply (follows_bind _ _ [KReduceMean] [KGroup (Z.to_nat n)] (λ _, True));
      [apply follows_invoke | intros mean_metric _].
    apply (follows_bind _ _ [KGroup (Z.to_nat n)] [] (λ _, True)).
    { rewrite <- Hu. apply (follows_invoke (CGroup update_ops)). }
    intros update_all _. eapply follows_weaken; [apply follows_ret | done]. }
  destruct (F w) as (evs & Hlog & Hres). exists evs. split; [done |].
  destruct (_.1); [done | by destruct Hres].
Qed.

(** One iteration of the loop returns exactly when its four calls, applied
    in order, return. *)
Lemma mean_auc_body_spec (labels predictions weights : Tensor) (i : nat)
    (metric_ops : list Tensor) (update_ops : list Op) (w w' : World)
    (st' : list Tensor * list Op) :
  mean_auc_body labels predictions weights i (metric_ops, update_ops) w = (inr st', w') ↔
  ∃ (r : TaskResult) (h' : Host),
    task_returns labels predictions weights i (host w) r h' ∧
    st' = (metric_ops ++ [r.2.1], update_ops ++ [r.2.2]) ∧
    w' = {| globals := globals w; host := h';
            log := log w ++ task_events labels predictions weights i r |}.
Proof.
  unfold mean_auc_body. split.
  - intros Hrun.
    apply invoke_bind_inv in Hrun as (l & h1 & H1 & Hrun).
    apply invoke_bind_inv in Hrun as (p & h2 & H2 & Hrun).
    apply invoke_bind_inv in Hrun as (t & h3 & H3 & Hrun).
    apply invoke_bind_inv in Hrun as ([metric update] & h4 & H4 & Hrun).
    cbn [globals host log] in *.
    injection Hrun as <- <-. exists (l, p, t, (metric, update)), h4.
    split; [by exists h1, h2, h3 |]. split; [done |].
    cbn [task_events]. by rewrite <- !app_assoc.
  - intros ([[[l p] t] [metric update]] & h' & (h1 & h2 & h3 & H1 & H2 & H3 & H4) & -> & ->).
    cbn [fst snd] in *.
    erewrite bind_invoke_ok by exact H1.
    erewrite bind_invoke_ok by exact H2.
    erewrite bind_invoke_ok by exact H3.
    erewrite bind_invoke_ok by exact H4.
    cbn [globals host log task_events]. by rewrite <- !app_assoc.
Qed.

Lemma mean_auc_loop_spec (labels predictions weights : Tensor) (m : nat) :
  ∀ (k : nat) (metric_ops : list Tensor) (update_ops : list Op) (w w' : World)
    (st' : list Tensor * list Op),
  for_each (mean_auc_body labels predictions weights) (seq k m) (metric_ops, update_ops) w =
    (inr st', w') ↔
  ∃ (rs : list TaskResult) (h' : Host),
    length rs = m ∧
    loop_returns labels predictions weights k (host w) rs h' ∧
    st' = (metric_ops ++ map (λ r, r.2.1) rs, update_ops ++ map (λ r, r.2.2) rs) ∧
    w' = {| globals := globals w; host := h';
            log := log w ++ loop_events labels predictions weights k rs |}.
Proof.
  induction m as [|m IH]; intros k metric_ops update_ops w w' st'.
  - split.
    + intros [= <- <-]. exists [], (host w). rewrite !app_nil_r. by destruct w.
    + intros (rs & h' & Hlen & Hloop & -> & ->). destruct rs; [| done].
      simpl in Hloop. subst h'. rewrite !app_nil_r. by destruct w.
  - change (seq k (S m)) with (k :: seq (S k) m). rewrite for_each_cons. split.
    + intros Hrun.
      destruct (mean_auc_body labels predictions weights k (metric_ops, update_ops) w)
        as [[e | st1] w1] eqn:Hbody; [done |].
      apply mean_auc_body_spec in Hbody as (r & h1 & Hr & -> & ->).
      apply IH in Hrun as (rs & h' & Hlen & Hloop & -> & ->). cbn [globals host log] in *.
      exists (r :: rs), h'. simpl. rewrite Hlen, <- !app_assoc.
      split; [done |]. split; [by exists h1 | done].
    + intros (rs & h' & Hlen & Hloop & -> & ->). destruct rs as [|r rs]; [done |].
      destruct Hloop as (h1 & Hr & Hloop). injection Hlen as Hlen.
      assert (Hbody : mean_auc_body labels predictions weights k (metric_ops, update_ops) w =
                (inr (metric_ops ++ [r.2.1], update_ops ++ [r.2.2]),
                 {| globals := globals w; host := h1;
                    log := log w ++ task_events labels predictions weights k r |})).
      { apply mean_auc_body_spec. by exists r, h1. }
      rewrite Hbody. apply IH. exists rs, h'. cbn [globals host log loop_events map].
      by rewrite <- !app_assoc.
Qed.

Lemma mean_auc_loop_inv (labels predictions weights : Tensor) (m : nat) :
  ∀ (k : nat) (metric_ops : list Tensor) (update_ops : list Op) (w w' : World)
    (st' : list Tensor * list Op),
  for_each (mean_auc_body labels predictions weights) (seq k m) (metric_ops, update_ops) w =
    (inr st', w') →
  ∃ rs : list TaskResult,
    length rs = m ∧
    st' = (metric_ops ++ map (λ r, r.2.1) rs, update_ops ++ map (λ r, r.2.2) rs) ∧
    log w' = log w ++ loop_events labels predictions weights k rs.
Proof.
  intros k metric_ops update_ops w w' st' Hrun.
  apply mean_auc_loop_spec in Hrun as (rs & h' & Hlen & _ & -> & ->). by exists rs.
Qed.

(** X1. The data flow of [mean_auc], for any library and on the calls
    applied.  In a run that returns, iteration after iteration for the
    tasks [0 .. n_tasks-1], the slices of column [i] of the labels, then of
    the predictions, then of the weights were applied and returned, and
    [tf.metrics.auc] was applied to the three slices in that order, each
    call on the library state the one before left; then [tf.stack] was
    applied to the metrics of all iterations in task order,
    [tf.reduce_mean] to what [tf.stack] returned and [tf.group] to the
    updates in task order.  The pair returned is what [tf.reduce_mean] and
    [tf.group] returned, the library state is the one [tf.group] left, the
    namespace is untouched and the log grew by exactly these calls. *)
Theorem mean_auc_data_flow (labels predictions weights : Tensor) (w w' : World) (n : Z)
    (mean_metric : Tensor) (update_all : Op) :
  globals w !! "n_tasks" = Some (VInt n) →
  mean_auc labels predictions weights w = (inr (mean_metric, update_all), w') →
  ∃ (rs : list TaskResult) (stacked : Tensor) (h' : Host),
    length rs = Z.to_nat n ∧
    mean_auc_returns labels predictions weights (host w) rs stacked mean_metric update_all h' ∧
    w' = {| globals := globals w; host := h';
            log := log w ++ mean_auc_log labels predictions weights rs stacked
                              mean_metric update_all |}.
Proof.
  intros Hn Hrun. rewrite (mean_auc_unfold _ _ _ _ _ Hn) in Hrun.
  destruct (for_each _ _ _ w) as [[e | [metric_ops update_ops]] w1] eqn:Hloop; [done |].
  apply mean_auc_loop_spec in Hloop as (rs & h1 & Hlen & Hloop & Hst & ->).
  injection Hst as -> ->.
  apply invoke_bind_inv in Hrun as (stacked & h2 & H2 & Hrun).
  apply invoke_bind_inv in Hrun as (mm & h3 & H3 & Hrun).
  apply invoke_bind_inv in Hrun as (ua & h4 & H4 & Hrun).
  cbn [globals host log] in *. injection Hrun as <- <- <-.
  exists rs, stacked, h4. split; [done |]. split; [by exists h1, h2, h3 |].
  unfold mean_auc_log. by rewrite <- !app_assoc.
Qed.

(** X2. With [n_tasks] zero or negative the loop of [mean_auc] does not
    run: no slice is taken and no AUC is computed, the only calls are
    [tf.stack] and [tf.group] on empty lists and [tf.reduce_mean] between
    them, and the run is the same whatever the three arguments are. *)
Theorem mean_auc_without_tasks (labels predictions weights labels' predictions' weights' : Tensor)
    (w : World) (n : Z) :
  globals w !! "n_tasks" = Some (VInt n) → n ≤ 0 →
  mean_auc labels predictions weights w = mean_auc labels' predictions' weights' w ∧
  calls_made (mean_auc labels predictions weights) w
    `prefix_of` [KStack 0; KReduceMean; KGroup 0] ∧
  (returns (mean_auc labels predictions weights) w →
   calls_made (mean_auc labels predictions weights) w = [KStack 0; KReduceMean; KGroup 0]).
Proof.
  intros Hn Hle. split.
  - rewrite !(mean_auc_unfold _ _ _ _ _ Hn). by replace (Z.to_nat n) with 0%nat by lia.
  - destruct (mean_auc_follows labels predictions weights w n Hn) as (evs & Hlog & Hres).
    replace (Z.to_nat n) with 0%nat in Hres by lia.
    change (mean_auc_plan 0) with [KStack 0; KReduceMean; KGroup 0] in Hres.
    unfold calls_made, returns, events_of. rewrite Hlog, drop_app_length.
    destruct ((mean_auc labels predictions weights w).1); simpl;
      [by split | by rewrite Hres].
Qed.

(** X3. [mean_auc] needs the global [n_tasks] to be bound to an integer:
    if the name is unbound the call ends with [NameError], if it is bound
    to anything else with [TypeError]; in both cases before any library
    call, leaving the world as it was. *)
Theorem mean_auc_needs_n_tasks (labels predictions weights : Tensor) (w : World) :
  globals w !! "n_tasks" ≫= as_int = None →
  mean_auc labels predictions weights w =
    (inl (match globals w !! "n_tasks" with
          | None => NameError "n_tasks"
          | Some _ => TypeError "n_tasks"
          end), w).
Proof.
  intros Hn. unfold mean_auc. rewrite bind_run. unfold read.
  destruct (globals w !! "n_tasks") as [v |]; [| done].
  rewrite bind_run. by destruct v.
Qed.

End AdapterProperties.

(** ** The two functions, over the reference semantics *)

Section RefProperties.
Import Ref.
Variable auc_stat : list Q → list Q → list Q → Q.
Local Existing Instance objects.
Local Instance ref_library : Library := library auc_stat.

Lemma scalars_map {A} (f : A → Q) (l : list A) :
  scalars (map (λ a, RScalar (f a)) l) = Some (map f l).
Proof.
  unfold scalars. induction l as [|a l IH]; simpl; [done |]. by rewrite IH.
Qed.

Lemma ref_body_ok (labels predictions weights : Tensor) (i : nat)
    (metric_ops : list Tensor) (update_ops : list Op) (w : World) :
  has_columns (S i) labels → has_columns (S i) predictions → has_columns (S i) weights →
  ∃ w', mean_auc_body labels predictions weights i (metric_ops, update_ops) w =
          (inr (metric_ops ++ [RScalar (auc_stat (col i labels) (col i predictions)
                                                 (col i weights))],
                update_ops ++ [Update (length (host w))]), w') ∧
        globals w' = globals w ∧
        host w' = host w ++ [(col i labels, col i predictions, col i weights)].
Proof.
  destruct labels as [| | |ncl rl]; try done.
  destruct predictions as [| | |ncp rp]; try done.
  destruct weights as [| | |ncw rw]; try done.
  simpl. intros Hl Hp Hw. unfold mean_auc_body.
  assert (Hil : (i <? ncl)%nat = true) by (apply Nat.ltb_lt; lia).
  assert (Hip : (i <? ncp)%nat = true) by (apply Nat.ltb_lt; lia).
  assert (Hiw : (i <? ncw)%nat = true) by (apply Nat.ltb_lt; lia).
  erewrite bind_invoke_ok by (simpl; rewrite Hil; reflexivity). simpl.
  erewrite bind_invoke_ok by (simpl; rewrite Hip; reflexivity). simpl.
  erewrite bind_invoke_ok by (simpl; rewrite Hiw; reflexivity). simpl.
  erewrite bind_invoke_ok by reflexivity. simpl.
  eexists. split; [reflexivity | done].
Qed.

Lemma ref_loop_ok (labels predictions weights : Tensor) (m : nat) :
  ∀ (k : nat) (metric_ops : list Tensor) (update_ops : list Op) (w : World),
  has_columns (k + m) labels → has_columns (k + m) predictions →
  has_columns (k + m) weights →
  ∃ w', for_each (mean_auc_body labels predictions weights) (seq k m)
          (metric_ops, update_ops) w =
          (inr (metric_ops ++
                  map (λ i, RScalar (auc_stat (col i labels) (col i predictions)
                                              (col i weights))) (seq k m),
                update_ops ++ map Update (seq (length (host w)) m)), w') ∧
        globals w' = globals w ∧
        host w' = host w ++
          map (λ i, (col i labels, col i predictions, col i weights)) (seq k m).
Proof.
  induction m as [|m IH]; intros k metric_ops update_ops w Hl Hp Hw.
  - exists w. simpl. by rewrite !app_nil_r.
  - assert (Hmono : ∀ t, has_columns (k + S m) t → has_columns (S k) t ∧
                         has_columns (S k + m) t).
    { intros [| | |nc rows]; simpl; lia. }
    destruct (ref_body_ok labels predictions weights k metric_ops update_ops w)
      as (w1 & Hrun1 & Hg1 & Hh1); [by apply Hmono .. |].
    destruct (IH (S k)
                (metric_ops ++ [RScalar (auc_stat (col k labels) (col k predictions)
                                                  (col k weights))])
                (update_ops ++ [Update (length (host w))]) w1)
      as (w2 & Hrun2 & Hg2 & Hh2); [by apply Hmono .. |].
    exists w2. change (seq k (S m)) with (k :: seq (S k) m).
    rewrite for_each_cons, Hrun1, Hrun2, Hg2, Hg1, Hh2, Hh1.
    rewrite length_app, Nat.add_1_r. simpl. by rewrite <- !app_assoc.
Qed.

(** In the reference semantics [mean_auc] returns the mean of the per-task
    statistics and the group of the per-task updates whenever its arguments
    have [n_tasks] columns. *)
Lemma ref_mean_auc_ok (labels predictions weights : Tensor) (n : nat) (w : World) :
  globals w !! "n_tasks" = Some (VInt (Z.of_nat n)) →
  has_columns n labels → has_columns n predictions → has_columns n weights →
  ∃ w', mean_auc labels predictions weights w =
          (inr (mean (task_aucs auc_stat n labels predictions weights),
                Group (task_updates (length (host w)) n)), w') ∧
        globals w' = globals w ∧
        host w' = host w ++ task_inputs n labels predictions weights.
Proof.
  intros Hn Hl Hp Hw. rewrite (mean_auc_unfold _ _ _ _ _ Hn), Nat2Z.id.
  destruct (ref_loop_ok labels predictions weights n 0 [] [] w)
    as (w1 & Hrun1 & Hg1 & Hh1); [done .. |].
  rewrite Hrun1, !app_nil_l.
  erewrite bind_invoke_ok
    by (simpl; unfold ref_stack; rewrite scalars_map; reflexivity).
  erewrite bind_invoke_ok by reflexivity.
  erewrite bind_invoke_ok by reflexivity.
  eexists. split; [reflexivity | by split].
Qed.

(** Slicing a column of a matrix succeeds exactly when the index is below
    the number of columns. *)
Lemma ref_getitem_col_spec (ncols i : nat) (rows : list (list Q)) (h : RHost) :
  ref_getitem_col (RMatrix ncols rows) i h =
    if decide (i < ncols)%nat then (inr (RVector (column i rows)), h)
    else (inl IndexError, h).
Proof. simpl. case_decide; by case Nat.ltb_spec; try lia. Qed.

Lemma ref_getitem_ok (ncols i : nat) (rows : list (list Q)) (h : RHost) :
  (i < ncols)%nat →
  getitem_col (RMatrix ncols rows) i h = (inr (RVector (column i rows)), h).
Proof.
  intros Hi. change (getitem_col ?t ?j ?g) with (ref_getitem_col t j g).
  rewrite ref_getitem_col_spec. by case_decide.
Qed.

Lemma ref_getitem_raise (ncols i : nat) (rows : list (list Q)) (h : RHost) :
  ¬ (i < ncols)%nat → getitem_col (RMatrix ncols rows) i h = (inl IndexError, h).
Proof.
  intros Hi. change (getitem_col ?t ?j ?g) with (ref_getitem_col t j g).
  rewrite ref_getitem_col_spec. by case_decide.
Qed.

Lemma ref_body_raise (ncl ncp ncw i : nat) (rl rp rw : list (list Q))
    (st : list Tensor * list Op) (w : World) :
  ¬ (i < ncl ∧ i < ncp ∧ i < ncw)%nat →
  (mean_auc_body (RMatrix ncl rl) (RMatrix ncp rp) (RMatrix ncw rw) i st w).1 =
    inl IndexError.
Proof.
  intros Hi. destruct st as [metric_ops update_ops]. unfold mean_auc_body.
  destruct (decide (i < ncl)%nat) as [Hl | Hl].
  2: { by erewrite bind_invoke_raise by (by apply ref_getitem_raise). }
  erewrite bind_invoke_ok by (by apply ref_getitem_ok).
  destruct (decide (i < ncp)%nat) as [Hp | Hp].
  2: { by erewrite bind_invoke_raise by (by apply ref_getitem_raise). }
  erewrite bind_invoke_ok by (by apply ref_getitem_ok).
  by erewrite bind_invoke_raise by (apply ref_getitem_raise; lia).
Qed.

Lemma ref_loop_raise (ncl ncp ncw i : nat) (rl rp rw : list (list Q)) (rest : list nat)
    (st : list Tensor * list Op) (w : World) :
  ¬ (i < ncl ∧ i < ncp ∧ i < ncw)%nat →
  (for_each (mean_auc_body (RMatrix ncl rl) (RMatrix ncp rp) (RMatrix ncw rw))
     (i :: rest) st w).1 = inl IndexError.
Proof.
  intros Hi. rewrite for_each_cons.
  pose proof (ref_body_raise ncl ncp ncw i rl rp rw st w Hi) as Hraise.
  match type of Hraise with (?t).1 = _ => by destruct t as [[e | st'] w'] end.
Qed.

(** With an argument of fewer than [n_tasks] columns the loop of [mean_auc]
    reaches a slice that is out of range. *)
Lemma ref_mean_auc_raise (ncl ncp ncw n : nat) (rl rp rw : list (list Q)) (w : World) :
  globals w !! "n_tasks" = Some (VInt (Z.of_nat n)) →
  ¬ (n ≤ ncl ∧ n ≤ ncp ∧ n ≤ ncw)%nat →
  (mean_auc (RMatrix ncl rl) (RMatrix ncp rp) (RMatrix ncw rw) w).1 = inl IndexError.
Proof.
  intros Hn Hcols. rewrite (mean_auc_unfold _ _ _ _ _ Hn), Nat2Z.id.
  set (c := (ncl `min` (ncp `min` ncw))%nat).
  assert (Hsplit : seq 0 n = seq 0 c ++ c :: seq (S c) (n - S c)).
  { replace n with (c + S (n - S c))%nat at 1 by lia. by rewrite seq_app. }
  rewrite Hsplit, for_each_app, bind_run.
  destruct (ref_loop_ok (RMatrix ncl rl) (RMatrix ncp rp) (RMatrix ncw rw) c 0 [] [] w)
    as (w1 & Hrun1 & _); [simpl; lia .. |].
  rewrite Hrun1.
  pose proof (ref_loop_raise ncl ncp ncw c rl rp rw (seq (S c) (n - S c))) as Hraise.
  match goal with |- context [ for_each _ (c :: _) ?st w1 ] =>
    specialize (Hraise st w1) end.
  assert (Hc : ¬ (c < ncl ∧ c < ncp ∧ c < ncw)%nat) by lia.
  specialize (Hraise Hc).
  match type of Hraise with (?t).1 = _ => destruct t as [[e | st'] w2] end;
    simpl in Hraise; [| discriminate Hraise].
  injection Hraise as ->. done.
Qed.

(** The mean does not depend on the order of the values. *)
Lemma sumQ_perm (l l' : list Q) : l ≡ₚ l' → (sumQ l == sumQ l')%Q.
Proof.
  induction 1 as [|x l l' _ IH|x y l|l l' l'' _ IH1 _ IH2]; simpl.
  - reflexivity.
  - by rewrite IH.
  - ring.
  - by rewrite IH1.
Qed.

Lemma mean_perm (l l' : list Q) : l ≡ₚ l' → mean l = mean l'.
Proof.
  intros Hperm. pose proof (Permutation_length Hperm) as Hlen.
  destruct l as [|x l], l' as [|x' l']; try done. unfold mean.
  f_equal. apply Qred_complete. by rewrite Hlen, (sumQ_perm _ _ Hperm).
Qed.

Lemma sumQ_scale (c : Q) (l : list Q) : (sumQ (map (Qmult c) l) == c * sumQ l)%Q.
Proof. induction l as [|x l IH]; simpl; [ring | rewrite IH; ring]. Qed.

(** Every value enters the mean with the same coefficient, one over the
    number of values. *)
Lemma mean_equal_weights (l : list Q) :
  l ≠ [] →
  ∃ q, mean l = RScalar q ∧
       (q == sumQ (map (Qmult (1 / inject_Z (Z.of_nat (length l)))) l))%Q.
Proof.
  intros Hl. destruct l as [|x l]; [done |]. eexists. split; [reflexivity |].
  rewrite Qred_correct, sumQ_scale. unfold Qdiv. ring.
Qed.

Lemma nth_seq_id {A} (d : A) (l : list A) : map (λ i, nth i l d) (seq 0 (length l)) = l.
Proof.
  apply (nth_ext _ _ d d).
  - by rewrite length_map, length_seq.
  - intros i Hi. rewrite length_map, length_seq in Hi.
    rewrite (nth_indep _ _ (nth 0 l d)) by (by rewrite length_map, length_seq).
    change (nth 0 l d) with ((λ i, nth i l d) 0%nat). rewrite map_nth.
    by rewrite seq_nth.
Qed.

Lemma col_permute (sigma : list nat) (t : RTensor) (n i : nat) :
  has_columns n t → (i < length sigma)%nat →
  col i (permute_cols sigma t) = col (nth i sigma 0%nat) t.
Proof.
  destruct t as [| | |ncols rows]; try done. intros _ Hi. simpl. unfold column.
  rewrite map_map. apply map_ext. intros r.
  rewrite (nth_indep _ _ (nth 0 r 0%Q)) by (by rewrite length_map).
  change (nth 0 r 0%Q) with ((λ j, nth j r 0%Q) 0%nat). by rewrite map_nth.
Qed.

Lemma has_columns_permute (sigma : list nat) (t : RTensor) (n : nat) :
  has_columns n t → length sigma = n → has_columns n (permute_cols sigma t).
Proof. destruct t; try done. simpl. lia. Qed.

(** The per-task statistics of column-permuted arguments are the per-task
    statistics of the arguments, permuted. *)
Lemma task_aucs_permute (sigma : list nat) (labels predictions weights : RTensor) (n : nat) :
  has_columns n labels → has_columns n predictions → has_columns n weights →
  length sigma = n →
  task_aucs auc_stat n (permute_cols sigma labels) (permute_cols sigma predictions)
    (permute_cols sigma weights) =
  map (λ j, auc_stat (col j labels) (col j predictions) (col j weights)) sigma.
Proof.
  intros Hl Hp Hw Hlen. unfold task_aucs.
  transitivity (map (λ j, auc_stat (col j labels) (col j predictions) (col j weights))
                  (map (λ i, nth i sigma 0%nat) (seq 0 (length sigma))));
    [| by rewrite nth_seq_id].
  rewrite map_map, Hlen. apply map_ext_in. intros i Hi. apply in_seq in Hi.
  by rewrite !(col_permute sigma _ n i) by (done || lia).
Qed.

(** C2. For arguments with at least [n_tasks] columns, [mean_auc] computes
    one AUC per task, task [i]'s from column [i] of the labels, predictions
    and weights, and returns the arithmetic mean of these [n_tasks] values
    together with one operation grouping the [n_tasks] per-task updates
    (update [i] feeding the accumulator registered for column [i]). *)
Theorem mean_auc_averages_task_aucs (labels predictions weights : Tensor) (n : nat)
    (w : World) :
  globals w !! "n_tasks" = Some (VInt (Z.of_nat n)) →
  has_columns n labels → has_columns n predictions → has_columns n weights →
  (mean_auc labels predictions weights w).1 =
    inr (mean (task_aucs auc_stat n labels predictions weights),
         Group (task_updates (length (host w)) n)) ∧
  host (mean_auc labels predictions weights w).2 =
    host w ++ task_inputs n labels predictions weights ∧
  length (task_aucs auc_stat n labels predictions weights) = n ∧
  length (task_updates (length (host w)) n) = n ∧
  calls_made (mean_auc labels predictions weights) w = mean_auc_plan n.
Proof.
  intros Hn Hl Hp Hw.
  destruct (ref_mean_auc_ok labels predictions weights n w Hn Hl Hp Hw)
    as (w' & Hrun & _ & Hhost).
  destruct (mean_auc_follows labels predictions weights w _ Hn) as (evs & Hlog & Hres).
  unfold calls_made, events_of. rewrite Hlog, drop_app_length.
  rewrite Hrun in Hres |- *. simpl in *. rewrite Nat2Z.id in Hres.
  unfold task_aucs, task_updates. by rewrite !length_map, !length_seq.
Qed.

(** C9. The loop of [mean_auc] is bounded by the global [n_tasks], not by
    its arguments: the slices it asks for are columns [0 .. n_tasks-1] of
    each argument.  They are all in range exactly when each argument has at
    least [n_tasks] columns; then every call returns and so does [mean_auc];
    otherwise a slice is out of range and [mean_auc] ends with that
    [IndexError]. *)
Theorem mean_auc_slices_in_range (ncl ncp ncw n : nat) (rl rp rw : list (list Q))
    (w : World) :
  globals w !! "n_tasks" = Some (VInt (Z.of_nat n)) →
  calls_made (mean_auc (RMatrix ncl rl) (RMatrix ncp rp) (RMatrix ncw rw)) w
    `prefix_of` mean_auc_plan n ∧
  ((∀ i h, (i < n)%nat →
      (ref_getitem_col (RMatrix ncl rl) i h).1 = inr (RVector (column i rl)) ∧
      (ref_getitem_col (RMatrix ncp rp) i h).1 = inr (RVector (column i rp)) ∧
      (ref_getitem_col (RMatrix ncw rw) i h).1 = inr (RVector (column i rw))) ↔
   (n ≤ ncl ∧ n ≤ ncp ∧ n ≤ ncw)%nat) ∧
  ((n ≤ ncl ∧ n ≤ ncp ∧ n ≤ ncw)%nat →
     returns (mean_auc (RMatrix ncl rl) (RMatrix ncp rp) (RMatrix ncw rw)) w ∧
     Forall returned
       (events_of (mean_auc (RMatrix ncl rl) (RMatrix ncp rp) (RMatrix ncw rw)) w) ∧
     calls_made (mean_auc (RMatrix ncl rl) (RMatrix ncp rp) (RMatrix ncw rw)) w =
       mean_auc_plan n) ∧
  (¬ (n ≤ ncl ∧ n ≤ ncp ∧ n ≤ ncw)%nat →
     (mean_auc (RMatrix ncl rl) (RMatrix ncp rp) (RMatrix ncw rw) w).1 = inl IndexError).
Proof.
  intros Hn.
  destruct (@mean_auc_follows objects ref_library
              (RMatrix ncl rl) (RMatrix ncp rp) (RMatrix ncw rw) w _ Hn)
    as (evs & Hlog & Hres). rewrite Nat2Z.id in Hres.
  destruct (disciplined_events _ w
              (@mean_auc_disciplined objects ref_library
                 (RMatrix ncl rl) (RMatrix ncp rp) (RMatrix ncw rw)))
    as [_ Hok].
  pose proof (events_of_log _ _ _ Hlog) as Hevs. unfold calls_made.
  rewrite Hevs in Hok |- *.
  split; [| split; [| split]].
  - destruct (_.1); [done | by rewrite Hres].
  - split.
    + intros Hall. destruct n as [|n]; [lia |].
      destruct (Hall n []) as (Hl & Hp & Hw); [lia |].
      rewrite ref_getitem_col_spec in Hl, Hp, Hw.
      repeat case_decide; simpl in *; try discriminate. lia.
    + intros (Hl & Hp & Hw) i h Hi. rewrite !ref_getitem_col_spec.
      repeat case_decide; try lia. done.
  - intros (Hl & Hp & Hw).
    destruct (ref_mean_auc_ok (RMatrix ncl rl) (RMatrix ncp rp) (RMatrix ncw rw) n w Hn)
      as (w' & Hrun & _); [done .. |].
    unfold returns. rewrite Hrun in Hres, Hok |- *. simpl in *.
    split; [done |]. split; [by apply (trace_ok_returned _ _ Hok) | done].
  - apply ref_mean_auc_raise. done.
Qed.

(** C10. The mean returned by [mean_auc] is symmetric in the tasks:
    permuting the columns of labels, predictions and weights by the same
    permutation of the task indices leaves it unchanged; and each task's AUC
    enters it with the same coefficient [1/n_tasks], the weight column
    being used only inside that task's AUC. *)
Theorem mean_auc_symmetric_in_tasks (labels predictions weights : Tensor)
    (sigma : list nat) (n : nat) (w : World) :
  globals w !! "n_tasks" = Some (VInt (Z.of_nat n)) →
  has_columns n labels → has_columns n predictions → has_columns n weights →
  sigma ≡ₚ seq 0 n →
  ∃ mean_metric update_all update_all',
    (mean_auc labels predictions weights w).1 = inr (mean_metric, update_all) ∧
    (mean_auc (permute_cols sigma labels) (permute_cols sigma predictions)
       (permute_cols sigma weights) w).1 = inr (mean_metric, update_all') ∧
    mean_metric = mean (task_aucs auc_stat n labels predictions weights) ∧
    ((0 < n)%nat →
     ∃ q, mean_metric = RScalar q ∧
          (q == sumQ (map (Qmult (1 / inject_Z (Z.of_nat n)))
                        (task_aucs auc_stat n labels predictions weights)))%Q).
Proof.
  intros Hn Hl Hp Hw Hperm.
  pose proof (Permutation_length Hperm) as Hlen. rewrite length_seq in Hlen.
  destruct (ref_mean_auc_ok labels predictions weights n w Hn Hl Hp Hw)
    as (w1 & Hrun1 & _).
  destruct (ref_mean_auc_ok (permute_cols sigma labels) (permute_cols sigma predictions)
              (permute_cols sigma weights) n w Hn)
    as (w2 & Hrun2 & _); [by apply has_columns_permute .. |].
  eexists _, _, _. rewrite Hrun1, Hrun2. simpl.
  split; [reflexivity |]. split; [| split; [reflexivity |]].
  - do 2 f_equal. rewrite task_aucs_permute by done.
    apply mean_perm. unfold task_aucs. by apply Permutation_map.
  - intros Hpos.
    destruct (mean_equal_weights (task_aucs auc_stat n labels predictions weights))
      as (q & Hq & Heq).
    { unfold task_aucs. destruct n; [lia | done]. }
    exists q. split; [done |]. rewrite Heq. unfold task_aucs at 1.
    by rewrite length_map, length_seq.
Qed.

Lemma sumQ_bounds (lo hi : Q) (l : list Q) :
  Forall (λ a, lo <= a <= hi)%Q l →
  (lo * inject_Z (Z.of_nat (length l)) <= sumQ l <= hi * inject_Z (Z.of_nat (length l)))%Q.
Proof.
  induction 1 as [|a l [Hlo Hhi] _ [IHlo IHhi]]; simpl length; simpl sumQ.
  - change (inject_Z (Z.of_nat 0)) with 0%Q. split; lra.
  - rewrite Nat2Z.inj_succ. unfold Z.succ. rewrite inject_Z_plus.
    change (inject_Z 1) with 1%Q. split; lra.
Qed.

(** X7. The mean returned by [mean_auc] lies between any two bounds that
    hold for every per-task AUC; in particular between the smallest and the
    largest of them. *)
Theorem mean_auc_between_bounds (labels predictions weights : Tensor) (n : nat)
    (w : World) (lo hi : Q) :
  globals w !! "n_tasks" = Some (VInt (Z.of_nat n)) → (0 < n)%nat →
  has_columns n labels → has_columns n predictions → has_columns n weights →
  Forall (λ a, lo <= a <= hi)%Q (task_aucs auc_stat n labels predictions weights) →
  ∃ q update_all,
    (mean_auc labels predictions weights w).1 = inr (RScalar q, update_all) ∧
    (lo <= q <= hi)%Q.
Proof.
  intros Hn Hpos Hl Hp Hw Hall.
  destruct (ref_mean_auc_ok labels predictions weights n w Hn Hl Hp Hw) as (w' & Hrun & _).
  rewrite Hrun. simpl.
  pose proof (sumQ_bounds lo hi _ Hall) as [Hlo Hhi].
  assert (Hlen : length (task_aucs auc_stat n labels predictions weights) = n).
  { unfold task_aucs. by rewrite length_map, length_seq. }
  rewrite Hlen in Hlo, Hhi.
  assert (Hc : (0 < inject_Z (Z.of_nat n))%Q).
  { change 0%Q with (inject_Z 0). rewrite <- Zlt_Qlt. lia. }
  unfold mean. destruct (task_aucs auc_stat n labels predictions weights) as [|a l] eqn:Hts.
  { simpl in Hlen. lia. }
  eexists _, _. split; [reflexivity |]. rewrite Qred_correct, Hlen. split.
  - by apply Qle_shift_div_l.
  - by apply Qle_shift_div_r.
Qed.

(** X9. [mean_auc] reads only the first [n_tasks] columns of its arguments:
    arguments that agree on these columns give the same result and leave
    the same library state, however many further columns they have and
    whatever these hold. *)
Theorem mean_auc_ignores_extra_columns
    (labels predictions weights labels' predictions' weights' : Tensor) (n : nat)
    (w : World) :
  globals w !! "n_tasks" = Some (VInt (Z.of_nat n)) →
  has_columns n labels → has_columns n predictions → has_columns n weights →
  has_columns n labels' → has_columns n predictions' → has_columns n weights' →
  (∀ i, (i < n)%nat → col i labels = col i labels' ∧ col i predictions = col i predictions' ∧
                      col i weights = col i weights') →
  (mean_auc labels predictions weights w).1 = (mean_auc labels' predictions' weights' w).1 ∧
  host (mean_auc labels predictions weights w).2 =
    host (mean_auc labels' predictions' weights' w).2.
Proof.
  intros Hn Hl Hp Hw Hl' Hp' Hw' Hcols.
  destruct (ref_mean_auc_ok labels predictions weights n w Hn Hl Hp Hw)
    as (w1 & Hrun1 & _ & Hh1).
  destruct (ref_mean_auc_ok labels' predictions' weights' n w Hn Hl' Hp' Hw')
    as (w2 & Hrun2 & _ & Hh2).
  rewrite Hrun1, Hrun2. simpl. rewrite Hh1, Hh2.
  assert (Haucs : task_aucs auc_stat n labels predictions weights =
                  task_aucs auc_stat n labels' predictions' weights').
  { unfold task_aucs. apply map_ext_in. intros i Hi. apply in_seq in Hi.
    destruct (Hcols i) as (-> & -> & ->); [lia | done]. }
  assert (Hins : task_inputs n labels predictions weights =
                 task_inputs n labels' predictions' weights').
  { unfold task_inputs. apply map_ext_in. intros i Hi. apply in_seq in Hi.
    destruct (Hcols i) as (-> & -> & ->); [lia | done]. }
  by rewrite Haucs, Hins.
Qed.

Lemma kinds_loop_events (labels predictions weights : Tensor) (rs : list TaskResult) :
  ∀ k, kinds (loop_events labels predictions weights k rs) = loop_plan (seq k (length rs)).
Proof.
  induction rs as [|[[[l p] t] mo] rs IH]; intros k; [done |].
  simpl. unfold loop_plan in *. simpl. by rewrite IH.
Qed.

Lemma ref_body_raise_at (ncl ncp ncw i : nat) (rl rp rw : list (list Q))
    (st : list Tensor * list Op) (w : World) :
  ¬ (i < ncl ∧ i < ncp ∧ i < ncw)%nat →
  ∃ w' evs,
    mean_auc_body (RMatrix ncl rl) (RMatrix ncp rp) (RMatrix ncw rw) i st w =
      (inl IndexError, w') ∧
    host w' = host w ∧ log w' = log w ++ evs ∧
    kinds evs = take (slices_tried ncl ncp i) (task_plan i).
Proof.
  intros Hi. destruct st as [metric_ops update_ops]. unfold mean_auc_body, slices_tried.
  destruct (Nat.ltb_spec i ncl) as [Hl | Hl].
  2: { erewrite bind_invoke_raise by (apply ref_getitem_raise; lia).
       eexists _, _. by repeat split. }
  erewrite bind_invoke_ok by (by apply ref_getitem_ok).
  destruct (Nat.ltb_spec i ncp) as [Hp | Hp].
  2: { erewrite bind_invoke_raise by (apply ref_getitem_raise; lia).
       eexists _, _. cbn [host log]. rewrite <- app_assoc. by repeat split. }
  erewrite bind_invoke_ok by (by apply ref_getitem_ok).
  erewrite bind_invoke_raise by (apply ref_getitem_raise; lia).
  eexists _, _. cbn [host log]. rewrite <- !app_assoc. by repeat split.
Qed.

(** X8. When an argument has fewer than [n_tasks] columns, [mean_auc] stops
    at the first missing column: with [c] the smallest of the three widths,
    iterations [0 .. c-1] run in full and their [c] accumulators stay
    registered in the library (nothing is undone), and iteration [c] ends
    with [IndexError] at the slice of the first argument, in the order
    labels, predictions, weights, that has only [c] columns. *)
Theorem mean_auc_stops_at_first_missing_column (ncl ncp ncw n : nat)
    (rl rp rw : list (list Q)) (w : World) :
  globals w !! "n_tasks" = Some (VInt (Z.of_nat n)) →
  (ncl `min` (ncp `min` ncw) < n)%nat →
  (mean_auc (RMatrix ncl rl) (RMatrix ncp rp) (RMatrix ncw rw) w).1 = inl IndexError ∧
  calls_made (mean_auc (RMatrix ncl rl) (RMatrix ncp rp) (RMatrix ncw rw)) w =
    loop_plan (seq 0 (ncl `min` (ncp `min` ncw))) ++
    take (slices_tried ncl ncp (ncl `min` (ncp `min` ncw)))
         (task_plan (ncl `min` (ncp `min` ncw))) ∧
  host (mean_auc (RMatrix ncl rl) (RMatrix ncp rp) (RMatrix ncw rw) w).2 =
    host w ++ task_inputs (ncl `min` (ncp `min` ncw))
                (RMatrix ncl rl) (RMatrix ncp rp) (RMatrix ncw rw).
Proof.
  intros Hn Hc. set (c := (ncl `min` (ncp `min` ncw))%nat) in *.
  unfold calls_made, events_of.
  rewrite (mean_auc_unfold _ _ _ _ _ Hn), Nat2Z.id.
  assert (Hsplit : seq 0 n = seq 0 c ++ c :: seq (S c) (n - S c)).
  { replace n with (c + S (n - S c))%nat at 1 by lia. by rewrite seq_app. }
  rewrite Hsplit, for_each_app, bind_run.
  destruct (ref_loop_ok (RMatrix ncl rl) (RMatrix ncp rp) (RMatrix ncw rw) c 0 [] [] w)
    as (w1 & Hrun1 & _ & Hh1); [simpl; lia .. |].
  rewrite Hrun1.
  destruct (mean_auc_loop_inv _ _ _ _ _ _ _ _ _ _ Hrun1) as (rs & Hlen & _ & Hlog1).
  rewrite for_each_cons.
  match goal with |- context [ mean_auc_body _ _ _ c ?st w1 ] =>
    destruct (ref_body_raise_at ncl ncp ncw c rl rp rw st w1)
      as (w2 & evs & Hrun2 & Hh2 & Hlog2 & Hkinds); [lia |]
  end.
  rewrite Hrun2. cbn [fst snd]. rewrite Hlog2, Hlog1, Hh2, Hh1.
  rewrite <- app_assoc, drop_app_length. unfold kinds in *.
  rewrite map_app, Hkinds.
  pose proof (kinds_loop_events (RMatrix ncl rl) (RMatrix ncp rp) (RMatrix ncw rw) rs 0)
    as Hk. unfold kinds in Hk. rewrite Hk, Hlen. done.
Qed.

End RefProperties.

(** ** The cells, over any toolkit *)

Section NotebookProperties.
Context `{Toolkit}.

Lemma read_bind {A B} (x : string) (v : Value) (sel : Value → M A) (k : A → M B)
    (w : World) :
  globals w !! x = Some v → ((read x ≫= sel) ≫= k) w = (sel v ≫= k) w.
Proof. intros Hx. rewrite !bind_run. unfold read. by rewrite Hx. Qed.

Lemma ret_bind {A B} (a : A) (k : A → M B) (w : World) : (mret a ≫= k) w = k a w.
Proof. reflexivity. Qed.

Lemma print_run (r : Report) (w : World) :
  print r w = (inr tt, {| globals := globals w; host := host w;
                          log := log w ++ [ev (CPrint r) VNone] |}).
Proof. reflexivity. Qed.

Ltac lookup_global := cbn [globals]; unfold setup_namespace, namespace_1; by simplify_map_eq.

(** *** Running a cell whose calls return *)

Ltac exec_read :=
  unfold read_dataset, read_datasets, read_strs, read_int, read_model, read_metric,
    read_column, read_estimator, read_module, read_input_fn, read_metric_fn;
  erewrite read_bind by lookup_global;
  cbv beta iota; rewrite ret_bind; cbv beta iota.

Ltac exec_assign := rewrite assign_bind; cbn [globals host log].

Ltac exec_invoke Hcall := erewrite bind_invoke_ok by exact Hcall; cbn [globals host log].

Lemma cell_1_exec (w : World) (tasks : list string) (train valid test : Dataset)
    (transformers : Transformers) (n_features : Z) (model : Model) (h' : Host) :
  cell_1_calls (host w) tasks train valid test transformers n_features model h' →
  cell_1 w =
    (inr tt, {| globals := namespace_1 (globals w) tasks train valid test transformers
                             n_features model;
                host := h';
                log := log w ++ cell_1_log tasks train valid test transformers
                                  n_features model |}).
Proof.
  intros (h1 & h2 & h3 & h4 & h5 & H1 & H2 & H3 & H4 & H5 & H6). unfold cell_1.
  exec_invoke H1. exec_assign. exec_invoke H2. exec_assign. exec_invoke H3. exec_assign.
  exec_read. exec_invoke H4. do 3 exec_assign. exec_read. do 3 exec_assign.
  exec_read. exec_assign. exec_read. exec_invoke H5. exec_assign. do 3 exec_read.
  exec_invoke H6. unfold assign, namespace_1, cell_1_log. cbn [globals host log].
  by rewrite <- !app_assoc.
Qed.

Lemma cell_2_exec (w : World) (model : Model) (train test : Dataset) (metric : Metric)
    (scores : Report) (h' : Host) :
  globals w !! "model" = Some (VModel model) →
  globals w !! "train_dataset" = Some (VDataset train) →
  globals w !! "test_dataset" = Some (VDataset test) →
  globals w !! "dc" = Some (VModule "deepchem") →
  globals w !! "np" = Some (VModule "numpy") →
  cell_2_calls (host w) model train test metric scores h' →
  cell_2 w =
    (inr tt, {| globals := <["metric" := VMetric metric]> (globals w); host := h';
                log := log w ++ cell_2_log model train test metric scores |}).
Proof.
  intros Hmodel Htrain Htest Hdc Hnp (h1 & h2 & H1 & H2 & H3). unfold cell_2.
  do 2 exec_read. exec_invoke H1. do 3 exec_read. exec_invoke H2. exec_assign.
  do 3 exec_read. exec_invoke H3. rewrite print_run. unfold cell_2_log.
  cbn [globals host log]. by rewrite <- !app_assoc.
Qed.

(** [model.fit] raising ends cell 2 there. *)
Lemma cell_2_fit_raises (w : World) (model : Model) (train : Dataset) (e : Exn) (h' : Host) :
  globals w !! "model" = Some (VModel model) →
  globals w !! "train_dataset" = Some (VDataset train) →
  fit model train 100 (host w) = (inl e, h') →
  cell_2 w = (inl e, {| globals := globals w; host := h';
                        log := log w ++ [raised (CFit model train 100) e] |}).
Proof.
  intros Hmodel Htrain Hfit. unfold cell_2. do 2 exec_read.
  by erewrite bind_invoke_raise by exact Hfit.
Qed.

Lemma cell_4_exec (w : World) (n_features n_tasks : Z) (x_col weight_col : Column)
    (h' : Host) :
  globals w !! "tf" = Some (VModule "tensorflow") →
  globals w !! "n_features" = Some (VInt n_features) →
  globals w !! "n_tasks" = Some (VInt n_tasks) →
  cell_4_calls (host w) n_features n_tasks x_col weight_col h' →
  cell_4 w =
    (inr tt, {| globals := <["weight_col" := VColumn weight_col]>
                             (<["x_col" := VColumn x_col]> (globals w));
                host := h';
                log := log w ++ cell_4_log n_features n_tasks x_col weight_col |}).
Proof.
  intros Htf Hf Hn (h1 & H1 & H2). unfold cell_4.
  do 2 exec_read. exec_invoke H1. exec_assign. do 2 exec_read. exec_invoke H2.
  unfold assign, cell_4_log. cbn [globals host log]. by rewrite <- !app_assoc.
Qed.

Lemma cell_6_exec (w : World) (model : Model) (x_col weight_col : Column)
    (estimator : Estimator) (h' : Host) :
  globals w !! "model" = Some (VModel model) →
  globals w !! "x_col" = Some (VColumn x_col) →
  globals w !! "weight_col" = Some (VColumn weight_col) →
  globals w !! "mean_auc" = Some (VMetricFn MeanAuc) →
  cell_6_calls (host w) model x_col weight_col estimator h' →
  cell_6 w =
    (inr tt, {| globals := <["estimator" := VEstimator estimator]> (globals w); host := h';
                log := log w ++ cell_6_log model x_col weight_col estimator |}).
Proof.
  intros Hmodel Hx Hw Hm H1. unfold cell_6, cell_6_calls in *.
  do 4 exec_read. exec_invoke H1. done.
Qed.

Lemma cell_7_exec (w : World) (estimator : Estimator) (train test : Dataset)
    (scores : Report) (h' : Host) :
  globals w !! "estimator" = Some (VEstimator estimator) →
  globals w !! "input_fn" = Some VInputFn →
  globals w !! "train_dataset" = Some (VDataset train) →
  globals w !! "test_dataset" = Some (VDataset test) →
  cell_7_calls (host w) estimator train test scores h' →
  cell_7 w =
    (inr tt, {| globals := globals w; host := h';
                log := log w ++ cell_7_log estimator train test scores |}).
Proof.
  intros Hest Hfn Htrain Htest (h1 & H1 & H2). unfold cell_7.
  do 3 exec_read. exec_invoke H1. do 3 exec_read. exec_invoke H2.
  rewrite print_run. unfold cell_7_log. cbn [globals host log]. by rewrite <- !app_assoc.
Qed.

(** [estimator.train] raising ends cell 7 there. *)
Lemma cell_7_train_raises (w : World) (estimator : Estimator) (train : Dataset)
    (e : Exn) (h' : Host) :
  globals w !! "estimator" = Some (VEstimator estimator) →
  globals w !! "input_fn" = Some VInputFn →
  globals w !! "train_dataset" = Some (VDataset train) →
  estimator_train estimator (InputFnClosure train 100) (host w) = (inl e, h') →
  cell_7 w = (inl e, {| globals := globals w; host := h';
                        log := log w ++ [raised (CTrain estimator (InputFnClosure train 100)) e] |}).
Proof.
  intros Hest Hfn Htrain Hcall. unfold cell_7. do 3 exec_read.
  by erewrite bind_invoke_raise by exact Hcall.
Qed.

(** When the calls of cells 1 to 6 return, the notebook reaches cell 7 in
    the namespace, the library state and with the log they leave. *)
Lemma notebook_after_setup (w : World) (tasks : list string) (train valid test : Dataset)
    (transformers : Transformers) (n_features : Z) (model : Model) (metric : Metric)
    (scores_1 : Report) (x_col weight_col : Column) (estimator : Estimator) (h6 : Host) :
  setup_calls (host w) tasks train valid test transformers n_features model metric scores_1
    x_col weight_col estimator h6 →
  notebook w =
    cell_7 {| globals := setup_namespace (globals w) tasks train valid test transformers
                           n_features model metric x_col weight_col estimator;
              host := h6;
              log := log w ++ setup_log tasks train valid test transformers n_features
                                model metric scores_1 x_col weight_col estimator |}.
Proof.
  intros (h1 & h2 & h4 & Hc1 & Hc2 & Hc4 & Hc6). unfold notebook.
  rewrite bind_run, (cell_1_exec _ _ _ _ _ _ _ _ _ Hc1).
  rewrite bind_run, (cell_2_exec _ model train test metric scores_1 h2);
    [| lookup_global .. | exact Hc2].
  rewrite bind_run. unfold cell_3, assign at 1. cbn [globals host log].
  rewrite bind_run, (cell_4_exec _ n_features (Z.of_nat (length tasks)) x_col weight_col h4);
    [| lookup_global .. | exact Hc4].
  rewrite bind_run. unfold cell_5, assign at 1. cbn [globals host log].
  rewrite bind_run, (cell_6_exec _ model x_col weight_col estimator h6);
    [| lookup_global .. | exact Hc6].
  unfold setup_namespace, setup_log. cbn [globals host log]. by rewrite <- !app_assoc.
Qed.

(** The whole notebook, on the calls applied: when they all return, in
    order and each on the state the one before left, the notebook returns,
    leaving the namespace, the library state and the log they determine. *)
Lemma notebook_exec (w : World) (tasks : list string) (train valid test : Dataset)
    (transformers : Transformers) (n_features : Z) (model : Model) (metric : Metric)
    (scores_1 : Report) (x_col weight_col : Column) (estimator : Estimator)
    (scores_2 : Report) (h' : Host) :
  notebook_calls (host w) tasks train valid test transformers n_features model metric
    scores_1 x_col weight_col estimator scores_2 h' →
  notebook w =
    (inr tt, {| globals := notebook_namespace (globals w) tasks train valid test
                             transformers n_features model metric x_col weight_col
                             estimator;
                host := h';
                log := log w ++ notebook_log tasks train valid test transformers
                                  n_features model metric scores_1 x_col weight_col
                                  estimator scores_2 |}).
Proof.
  intros (h6 & Hsetup & Hc7). rewrite (notebook_after_setup _ _ _ _ _ _ _ _ _ _ _ _ _ _ Hsetup).
  rewrite (cell_7_exec _ estimator train test scores_2 h'); [| lookup_global .. | exact Hc7].
  unfold notebook_namespace, notebook_log. cbn [globals host log]. by rewrite <- !app_assoc.
Qed.

(** A training call that raises ends the notebook there, with its
    exception, before the evaluation of its path. *)
Lemma notebook_fit_raises (w : World) (tasks : list string) (train valid test : Dataset)
    (transformers : Transformers) (n_features : Z) (model : Model) (h1 : Host)
    (e : Exn) (h' : Host) :
  cell_1_calls (host w) tasks train valid test transformers n_features model h1 →
  fit model train 100 h1 = (inl e, h') →
  notebook w =
    (inl e, {| globals := namespace_1 (globals w) tasks train valid test transformers
                            n_features model;
               host := h';
               log := log w ++ cell_1_log tasks train valid test transformers
                                 n_features model ++
                               [raised (CFit model train 100) e] |}).
Proof.
  intros Hc1 Hfit. unfold notebook.
  rewrite bind_run, (cell_1_exec _ _ _ _ _ _ _ _ _ Hc1).
  rewrite bind_run, (cell_2_fit_raises _ model train e h');
    [| lookup_global .. | exact Hfit].
  cbn [globals host log]. by rewrite <- !app_assoc.
Qed.

Lemma notebook_train_raises (w : World) (tasks : list string) (train valid test : Dataset)
    (transformers : Transformers) (n_features : Z) (model : Model) (metric : Metric)
    (scores_1 : Report) (x_col weight_col : Column) (estimator : Estimator) (h6 : Host)
    (e : Exn) (h' : Host) :
  setup_calls (host w) tasks train valid test transformers n_features model metric scores_1
    x_col weight_col estimator h6 →
  estimator_train estimator (InputFnClosure train 100) h6 = (inl e, h') →
  notebook w =
    (inl e, {| globals := setup_namespace (globals w) tasks train valid test transformers
                            n_features model metric x_col weight_col estimator;
               host := h';
               log := log w ++ setup_log tasks train valid test transformers n_features
                                 model metric scores_1 x_col weight_col estimator ++
                               [raised (CTrain estimator (InputFnClosure train 100)) e] |}).
Proof.
  intros Hsetup Htrain.
  rewrite (notebook_after_setup _ _ _ _ _ _ _ _ _ _ _ _ _ _ Hsetup).
  rewrite (cell_7_train_raises _ estimator train e h'); [| lookup_global .. | exact Htrain].
  cbn [globals host log]. by rewrite <- !app_assoc.
Qed.

(** *** Reading off a run that returned *)

Ltac run_read Hrun :=
  unfold read_dataset, read_datasets, read_strs, read_int, read_model, read_metric,
    read_column, read_estimator, read_module, read_input_fn, read_metric_fn in Hrun;
  erewrite read_bind in Hrun by lookup_global;
  cbv beta iota in Hrun; rewrite ret_bind in Hrun.

Ltac run_assign Hrun := rewrite assign_bind in Hrun; cbn [globals host log] in Hrun.

Ltac run_invoke Hrun a h Hcall :=
  apply invoke_bind_inv in Hrun as (a & h & Hcall & Hrun);
  cbn [globals host log] in Hrun, Hcall.

Lemma cell_1_inv (w w' : World) :
  cell_1 w = (inr tt, w') →
  ∃ tasks train valid test transformers n_features model,
    cell_1_calls (host w) tasks train valid test transformers n_features model (host w') ∧
    globals w' = namespace_1 (globals w) tasks train valid test transformers
                   n_features model ∧
    log w' = log w ++ cell_1_log tasks train valid test transformers n_features model.
Proof.
  unfold cell_1. intros Hrun.
  run_invoke Hrun u1 h1 H1. run_assign Hrun. run_invoke Hrun u2 h2 H2. run_assign Hrun.
  run_invoke Hrun u3 h3 H3. run_assign Hrun. run_read Hrun.
  run_invoke Hrun loaded h4 H4. destruct loaded as [[tasks [[train valid] test]] transformers].
  do 3 run_assign Hrun. run_read Hrun. do 3 run_assign Hrun.
  run_read Hrun. run_assign Hrun. run_read Hrun.
  run_invoke Hrun n_features h5 H5. run_assign Hrun. do 3 run_read Hrun.
  run_invoke Hrun model h6 H6. unfold assign in Hrun. injection Hrun as <-.
  destruct u1, u2, u3.
  exists tasks, train, valid, test, transformers, n_features, model.
  cbn [globals host log]. split; [by exists h1, h2, h3, h4, h5 |].
  split; [done |]. unfold cell_1_log. by rewrite <- !app_assoc.
Qed.

Lemma cell_2_inv (w w' : World) (model : Model) (train test : Dataset) :
  globals w !! "model" = Some (VModel model) →
  globals w !! "train_dataset" = Some (VDataset train) →
  globals w !! "test_dataset" = Some (VDataset test) →
  globals w !! "dc" = Some (VModule "deepchem") →
  globals w !! "np" = Some (VModule "numpy") →
  cell_2 w = (inr tt, w') →
  ∃ metric scores,
    cell_2_calls (host w) model train test metric scores (host w') ∧
    globals w' = <["metric" := VMetric metric]> (globals w) ∧
    log w' = log w ++ cell_2_log model train test metric scores.
Proof.
  unfold cell_2. intros Hmodel Htrain Htest Hdc Hnp Hrun.
  do 2 run_read Hrun. run_invoke Hrun u1 h1 H1. do 3 run_read Hrun.
  run_invoke Hrun metric h2 H2. run_assign Hrun.
  do 3 run_read Hrun. run_invoke Hrun scores h3 H3. rewrite print_run in Hrun.
  injection Hrun as <-. destruct u1. exists metric, scores. cbn [globals host log].
  split; [by exists h1, h2 |]. split; [done |]. unfold cell_2_log. by rewrite <- !app_assoc.
Qed.

Lemma cell_4_inv (w w' : World) (n_tasks n_features : Z) :
  globals w !! "tf" = Some (VModule "tensorflow") →
  globals w !! "n_features" = Some (VInt n_features) →
  globals w !! "n_tasks" = Some (VInt n_tasks) →
  cell_4 w = (inr tt, w') →
  ∃ x_col weight_col,
    cell_4_calls (host w) n_features n_tasks x_col weight_col (host w') ∧
    globals w' = <["weight_col" := VColumn weight_col]>
                   (<["x_col" := VColumn x_col]> (globals w)) ∧
    log w' = log w ++ cell_4_log n_features n_tasks x_col weight_col.
Proof.
  unfold cell_4. intros Htf Hf Hn Hrun.
  do 2 run_read Hrun. run_invoke Hrun x_col h1 H1. run_assign Hrun. do 2 run_read Hrun.
  run_invoke Hrun weight_col h2 H2. unfold assign in Hrun. injection Hrun as <-.
  exists x_col, weight_col. cbn [globals host log].
  split; [by exists h1 |]. split; [done |]. unfold cell_4_log. by rewrite <- !app_assoc.
Qed.

Lemma cell_6_inv (w w' : World) (model : Model) (x_col weight_col : Column) :
  globals w !! "model" = Some (VModel model) →
  globals w !! "x_col" = Some (VColumn x_col) →
  globals w !! "weight_col" = Some (VColumn weight_col) →
  globals w !! "mean_auc" = Some (VMetricFn MeanAuc) →
  cell_6 w = (inr tt, w') →
  ∃ estimator,
    cell_6_calls (host w) model x_col weight_col estimator (host w') ∧
    globals w' = <["estimator" := VEstimator estimator]> (globals w) ∧
    log w' = log w ++ cell_6_log model x_col weight_col estimator.
Proof.
  unfold cell_6. intros Hmodel Hx Hw Hm Hrun.
  do 4 run_read Hrun. run_invoke Hrun estimator h1 H1. unfold assign in Hrun.
  injection Hrun as <-. by exists estimator.
Qed.

Lemma cell_7_inv (w w' : World) (estimator : Estimator) (train test : Dataset) :
  globals w !! "estimator" = Some (VEstimator estimator) →
  globals w !! "input_fn" = Some VInputFn →
  globals w !! "train_dataset" = Some (VDataset train) →
  globals w !! "test_dataset" = Some (VDataset test) →
  cell_7 w = (inr tt, w') →
  ∃ scores,
    cell_7_calls (host w) estimator train test scores (host w') ∧
    globals w' = globals w ∧
    log w' = log w ++ cell_7_log estimator train test scores.
Proof.
  unfold cell_7. intros Hest Hfn Htrain Htest Hrun.
  do 3 run_read Hrun. run_invoke Hrun u1 h1 H1. do 3 run_read Hrun.
  run_invoke Hrun scores h2 H2. rewrite print_run in Hrun. injection Hrun as <-.
  destruct u1. exists scores. cbn [globals host log].
  split; [by exists h1 |]. split; [done |]. unfold cell_7_log. by rewrite <- !app_assoc.
Qed.

(** A run of the notebook that returns is a run in which all its calls
    returned, in order, each on the state the one before left. *)
Lemma notebook_inv (w w' : World) :
  notebook w = (inr tt, w') →
  ∃ tasks train valid test transformers n_features model metric scores_1
    x_col weight_col estimator scores_2,
    notebook_calls (host w) tasks train valid test transformers n_features model metric
      scores_1 x_col weight_col estimator scores_2 (host w') ∧
    globals w' = notebook_namespace (globals w) tasks train valid test transformers
                   n_features model metric x_col weight_col estimator ∧
    log w' = log w ++ notebook_log tasks train valid test transformers n_features model
                        metric scores_1 x_col weight_col estimator scores_2.
Proof.
  unfold notebook. intros Hrun.
  apply bind_inv in Hrun as ([] & w1 & H1 & Hrun).
  apply bind_inv in Hrun as ([] & w2 & H2 & Hrun).
  apply bind_inv in Hrun as ([] & w3 & H3 & Hrun).
  apply bind_inv in Hrun as ([] & w4 & H4 & Hrun).
  apply bind_inv in Hrun as ([] & w5 & H5 & Hrun).
  apply bind_inv in Hrun as ([] & w6 & H6 & H7).
  apply cell_1_inv in H1
    as (tasks & train & valid & test & transformers & n_features & model &
        Hc1 & Hg1 & Hlog1).
  eapply cell_2_inv in H2 as (metric & scores_1 & Hc2 & Hg2 & Hlog2);
    [| rewrite Hg1; lookup_global ..].
  unfold cell_3, assign in H3. injection H3 as <-. cbn [globals host log] in *.
  eapply cell_4_inv in H4 as (x_col & weight_col & Hc4 & Hg4 & Hlog4);
    [| cbn [globals]; rewrite Hg2, Hg1; lookup_global ..].
  unfold cell_5, assign in H5. injection H5 as <-. cbn [globals host log] in *.
  eapply cell_6_inv in H6 as (estimator & Hc6 & Hg6 & Hlog6);
    [| cbn [globals]; rewrite ?Hg4, ?Hg2, ?Hg1; lookup_global ..].
  eapply cell_7_inv in H7 as (scores_2 & Hc7 & Hg7 & Hlog7);
    [| rewrite Hg6; cbn [globals]; rewrite ?Hg4, ?Hg2, ?Hg1; lookup_global ..].
  exists tasks, train, valid, test, transformers, n_features, model, metric, scores_1,
    x_col, weight_col, estimator, scores_2.
  split; [| split].
  - exists (host w6). split; [| done]. by exists (host w1), (host w2), (host w4).
  - rewrite Hg7, Hg6. cbn [globals]. by rewrite Hg4, Hg2, Hg1.
  - rewrite Hlog7, Hlog6. cbn [log]. rewrite Hlog4, Hlog2, Hlog1.
    unfold notebook_log, setup_log. by rewrite <- !app_assoc.
Qed.

(** *** The plan of the calls *)

Ltac silent :=
  first
    [ apply follows_assign
    | apply follows_silent_bind;
        [apply follows_read | intros []; first [apply follows_done | apply follows_raise]] ].

Ltac plan_steps :=
  unfold read_dataset, read_datasets, read_strs, read_int, read_model, read_metric,
    read_column, read_estimator, read_module, read_input_fn, read_metric_fn;
  repeat first
    [ apply follows_invoke_bind; intros ?
    | apply follows_silent_bind; [silent | intros ?]
    | match goal with a : (_ * _)%type |- _ => destruct a end ].

Lemma cell_1_follows : follows cell_1 cell_1_plan (λ _, True).
Proof. unfold cell_1, cell_1_plan. plan_steps. apply follows_assign. Qed.

Lemma cell_2_follows : follows cell_2 cell_2_plan (λ _, True).
Proof. unfold cell_2, cell_2_plan. plan_steps. apply follows_invoke. Qed.

Lemma cell_4_follows : follows cell_4 cell_4_plan (λ _, True).
Proof. unfold cell_4, cell_4_plan. plan_steps. apply follows_assign. Qed.

Lemma cell_6_follows : follows cell_6 cell_6_plan (λ _, True).
Proof. unfold cell_6, cell_6_plan. plan_steps. apply follows_assign. Qed.

Lemma cell_7_follows : follows cell_7 cell_7_plan (λ _, True).
Proof. unfold cell_7, cell_7_plan. plan_steps. apply follows_invoke. Qed.

Lemma notebook_follows : follows notebook notebook_plan (λ _, True).
Proof.
  unfold notebook, notebook_plan.
  apply (follows_bind _ _ _ _ (λ _, True)); [apply cell_1_follows | intros _ _].
  apply (follows_bind _ _ _ _ (λ _, True)); [apply cell_2_follows | intros _ _].
  apply follows_silent_bind; [apply follows_assign | intros _].
  apply (follows_bind _ _ _ _ (λ _, True)); [apply cell_4_follows | intros _ _].
  apply follows_silent_bind; [apply follows_assign | intros _].
  apply (follows_bind _ _ _ _ (λ _, True)); [apply cell_6_follows | intros _ _].
  apply cell_7_follows.
Qed.

Ltac quiet :=
  first
    [ apply disciplined_assign
    | apply disciplined_invoke
    | apply disciplined_bind;
        [apply disciplined_read
        | intros []; first [apply disciplined_ret | apply disciplined_raise]] ].

Ltac discipline_steps :=
  unfold read_dataset, read_datasets, read_strs, read_int, read_model, read_metric,
    read_column, read_estimator, read_module, read_input_fn, read_metric_fn;
  repeat first
    [ quiet
    | apply disciplined_bind; [quiet | intros ?]
    | match goal with a : (_ * _)%type |- _ => destruct a end ].

Lemma notebook_disciplined : disciplined notebook.
Proof.
  unfold notebook.
  apply disciplined_bind; [unfold cell_1; discipline_steps | intros _].
  apply disciplined_bind; [unfold cell_2; discipline_steps | intros _].
  apply disciplined_bind; [apply disciplined_assign | intros _].
  apply disciplined_bind; [unfold cell_4; discipline_steps | intros _].
  apply disciplined_bind; [apply disciplined_assign | intros _].
  apply disciplined_bind; [unfold cell_6; discipline_steps | intros _].
  unfold cell_7. discipline_steps.
Qed.

(** X4. What a completed run of the notebook leaves in the module
    namespace.  A run that returns is one in which every library call
    returned, in order and each on the state the one before left; the run
    binds the eighteen names of [notebook_names] (the three module aliases,
    the nine names of cell 1 from [tasks] to [model], [metric], the two
    functions, the two columns and [estimator]), each to what those calls
    returned ([n_tasks] to the number of tasks the loader returned,
    [n_features] to the width of the training set); every other name is as
    it was before the run. *)
Theorem notebook_final_namespace (w w' : World) :
  notebook w = (inr tt, w') →
  ∃ tasks train valid test transformers n_features model metric scores_1
    x_col weight_col estimator scores_2,
    notebook_calls (host w) tasks train valid test transformers n_features model metric
      scores_1 x_col weight_col estimator scores_2 (host w') ∧
    globals w' = notebook_namespace (globals w) tasks train valid test transformers
                   n_features model metric x_col weight_col estimator ∧
    (∀ x, x ∉ notebook_names → globals w' !! x = globals w !! x) ∧
    (∀ x, x ∈ notebook_names → is_Some (globals w' !! x)).
Proof.
  intros Hrun.
  apply notebook_inv in Hrun
    as (tasks & train & valid & test & transformers & n_features & model & metric &
        scores_1 & x_col & weight_col & estimator & scores_2 & Hcalls & Hg & _).
  exists tasks, train, valid, test, transformers, n_features, model, metric, scores_1,
    x_col, weight_col, estimator, scores_2.
  split; [done |]. split; [done |]. split.
  - intros x Hx. rewrite Hg.
    unfold notebook_namespace, setup_namespace, namespace_1, notebook_names in *.
    rewrite !lookup_insert_ne;
      [done
      | intros <-; apply Hx;
        repeat first [apply list_elem_of_here | apply list_elem_of_further] ..].
  - intros x Hx. rewrite Hg.
    unfold notebook_namespace, setup_namespace, namespace_1, notebook_names in *.
    apply list_elem_of_In in Hx. simpl in Hx.
    repeat (destruct Hx as [<- | Hx];
      [repeat first [ apply lookup_insert_is_Some'; left; reflexivity
                    | apply lookup_insert_is_Some'; right ] |]).
    done.
Qed.

(** X6. The later cells depend on the earlier ones, name by name in the
    order the source evaluates them: run where the first name they read is
    unbound, cells 2, 4, 6 and 7 end with [NameError] for that name
    ([model], [tf], [model], [estimator]), before making any call and
    leaving the world as it was.  In cell 4 the module alias comes first:
    [n_features] is looked up only once [tf] has been found. *)
Theorem cells_need_their_names (w w4 : World) (m : string) :
  globals w !! "model" = None →
  globals w !! "tf" = None →
  globals w !! "estimator" = None →
  globals w4 !! "tf" = Some (VModule m) →
  globals w4 !! "n_features" = None →
  cell_2 w = (inl (NameError "model"), w) ∧
  cell_4 w = (inl (NameError "tf"), w) ∧
  cell_6 w = (inl (NameError "model"), w) ∧
  cell_7 w = (inl (NameError "estimator"), w) ∧
  cell_4 w4 = (inl (NameError "n_features"), w4).
Proof.
  intros Hmodel Htf Hestimator Htf4 Hfeatures. split; [| split; [| split; [| split]]].
  - unfold cell_2, read_model. rewrite !bind_run. unfold read. by rewrite Hmodel.
  - unfold cell_4, read_module. rewrite !bind_run. unfold read. by rewrite Htf.
  - unfold cell_6, read_model. rewrite !bind_run. unfold read. by rewrite Hmodel.
  - unfold cell_7, read_estimator. rewrite !bind_run. unfold read. by rewrite Hestimator.
  - unfold cell_4, read_module, read_int. rewrite (read_bind _ _ _ _ _ Htf4).
    cbv beta iota. rewrite ret_bind, !bind_run. unfold read. by rewrite Hfeatures.
Qed.

(** *** Failing only in calls *)



















End NotebookProperties.

(** * The claims *)

Section Claims.

(** C1. Whenever the two library calls return, [input_fn] returns a pair
    whose first element maps ['x'] to the feature tensor and ['weights'] to
    the weight tensor and whose second element is the label tensor, the
    three tensors being what [get_next] returned on the iterator made by
    [make_iterator] with [batch_size=100] and the requested number of
    epochs; these are the only two calls it makes. *)
Theorem input_fn_returns_features_and_labels `{Library}
    (dataset : Dataset) (epochs : Z) (w : World)
    (it : Iterator) (x y weights : Tensor) (h1 h2 : Host) :
  make_iterator dataset 100 epochs (host w) = (inr it, h1) →
  get_next it h1 = (inr (x, y, weights), h2) →
  ∃ features,
    input_fn dataset epochs w =
      (inr (features, y),
       {| globals := globals w; host := h2;
          log := log w ++ [ ev (CMakeIterator dataset 100 epochs) (VIterator it);
                            ev (CGetNext it) (VTensors (x, y, weights)) ] |}) ∧
    features !! "x" = Some x ∧ features !! "weights" = Some weights.
Proof.
  intros Hmake Hnext. exists {["x" := x; "weights" := weights]}. split.
  - unfold input_fn. erewrite bind_invoke_ok by exact Hmake.
    erewrite bind_invoke_ok by exact Hnext. cbn [globals host log].
    by rewrite <- app_assoc.
  - by simplify_map_eq.
Qed.

(** C4. Neither function catches, transforms or retries: if a library call
    it makes raises [e], that call is the last thing the function does and
    the function ends with the same [e]. *)
Theorem adapters_propagate_exceptions `{Library}
    (dataset : Dataset) (epochs : Z) (labels predictions weights : Tensor)
    (w : World) (pre post : list Event) (c : Call) (e : Exn) :
  (events_of (input_fn dataset epochs) w =
     pre ++ {| call := c; outcome := Raised e |} :: post →
   post = [] ∧ (input_fn dataset epochs w).1 = inl e) ∧
  (events_of (mean_auc labels predictions weights) w =
     pre ++ {| call := c; outcome := Raised e |} :: post →
   post = [] ∧ (mean_auc labels predictions weights w).1 = inl e).
Proof.
  split; intros Hevs.
  - destruct (disciplined_events _ w (input_fn_disciplined dataset epochs)) as [_ Hok].
    by apply (trace_ok_raised _ pre post c e _ Hok).
  - destruct (disciplined_events _ w (mean_auc_disciplined labels predictions weights))
      as [_ Hok].
    by apply (trace_ok_raised _ pre post c e _ Hok).
Qed.

(** C5. The state of the two functions is local: neither rebinds a name of
    the module namespace, both only append to the log of calls, and what
    they return, what they log and what they leave in the libraries' state
    is determined by their arguments, by the libraries' state and (for
    [mean_auc]) by the value of [n_tasks]; nothing is remembered from one
    call to the next. *)
Theorem adapters_state_is_local `{Library}
    (dataset : Dataset) (epochs : Z) (labels predictions weights : Tensor)
    (w1 w2 : World) :
  host w1 = host w2 →
  globals w1 !! "n_tasks" = globals w2 !! "n_tasks" →
  acts_alike (input_fn dataset epochs) w1 w2 ∧
  acts_alike (mean_auc labels predictions weights) w1 w2.
Proof.
  intros Hh Hn. split.
  - apply (confined_local [] _ w1 w2 (input_fn_confined dataset epochs) Hh). set_solver.
  - apply (confined_local ["n_tasks"] _ w1 w2
             (mean_auc_confined labels predictions weights) Hh).
    intros x Hx. by apply list_elem_of_singleton in Hx as ->.
Qed.

(** C6. Neither function branches on its input: the calls a run makes are
    an initial segment of a fixed sequence ([input_fn_plan], and
    [mean_auc_plan] for the value of [n_tasks]), the whole of it when the
    run returns; so any two runs that return, on whatever inputs, make the
    same sequence of calls, the loop of [mean_auc] running once per task. *)
Theorem adapters_call_sequence_is_fixed `{Library}
    (dataset1 dataset2 : Dataset) (epochs1 epochs2 : Z)
    (labels1 predictions1 weights1 labels2 predictions2 weights2 : Tensor)
    (w1 w2 : World) (n : Z) :
  globals w1 !! "n_tasks" = Some (VInt n) →
  globals w2 !! "n_tasks" = Some (VInt n) →
  same_calls (input_fn dataset1 epochs1) w1 (input_fn dataset2 epochs2) w2 input_fn_plan ∧
  same_calls (mean_auc labels1 predictions1 weights1) w1
             (mean_auc labels2 predictions2 weights2) w2 (mean_auc_plan (Z.to_nat n)).
Proof.
  intros Hn1 Hn2. split.
  - destruct (follows_calls_made _ _ _ w1 (input_fn_follows dataset1 epochs1)) as [Hp1 He1].
    destruct (follows_calls_made _ _ _ w2 (input_fn_follows dataset2 epochs2)) as [Hp2 He2].
    split; [done | split; [done |]]. intros Hr1 Hr2. by rewrite He1, He2.
  - assert (Hone : ∀ l p t (w : World), globals w !! "n_tasks" = Some (VInt n) →
              calls_made (mean_auc l p t) w `prefix_of` mean_auc_plan (Z.to_nat n) ∧
              (returns (mean_auc l p t) w →
               calls_made (mean_auc l p t) w = mean_auc_plan (Z.to_nat n))).
    { intros l p t w Hn. destruct (mean_auc_follows l p t w n Hn) as (evs & Hlog & Hres).
      unfold calls_made, returns, events_of. rewrite Hlog, drop_app_length.
      destruct ((mean_auc l p t w).1); simpl; [by split | by rewrite Hres]. }
    destruct (Hone labels1 predictions1 weights1 w1 Hn1) as [Hp1 He1].
    destruct (Hone labels2 predictions2 weights2 w2 Hn2) as [Hp2 He2].
    split; [done | split; [done |]]. intros Hr1 Hr2. by rewrite He1, He2.
Qed.

(** C8. The mapping returned by [input_fn] has exactly the keys ['x'] and
    ['weights'], bound to the first and third tensors [get_next] returned;
    the second one, the labels, is returned beside the mapping, not in it.
    The two keys are the names the notebook gives to [numeric_column] when
    it creates its columns: the calls cells 4 and 6 apply are
    [numeric_column('x', shape=(n_features,))], then
    [numeric_column('weights', shape=(n_tasks,))], then [make_estimator]
    with the column the first returned as its only feature column and the
    column the second returned as its weight column; when these return
    (and the other calls of the notebook do), the notebook returns with
    [x_col], [weight_col] and [estimator] bound to what they returned and
    the library state the last call left. *)
Theorem input_fn_keys_match_columns
    (O1 : Objects) (L : @Library O1) (O2 : Objects) (T : @Toolkit O2)
    (dataset : @Dataset O1) (epochs : Z) (w w' : @World O1)
    (features : gmap string (@Tensor O1)) (y : @Tensor O1)
    (nw : @World O2) (tasks : list string) (train valid test : @Dataset O2)
    (transformers : @Transformers O2) (n_features : Z) (model : @Model O2)
    (metric : @Metric O2) (scores_1 : Report) (x_col weight_col : @Column O2)
    (estimator : @Estimator O2) (scores_2 : Report) (h1 h2 h3 h4 h6 h7 : @Host O2) :
  @input_fn O1 L dataset epochs w = (inr (features, y), w') →
  @cell_1_calls O2 T (host nw) tasks train valid test transformers n_features model h1 →
  @cell_2_calls O2 T h1 model train test metric scores_1 h2 →
  @numeric_column O2 T "x" [n_features] h2 = (inr x_col, h3) →
  @numeric_column O2 T "weights" [Z.of_nat (length tasks)] h3 = (inr weight_col, h4) →
  @make_estimator O2 T model [x_col] weight_col [("mean_auc", MeanAuc)] "estimator" h4 =
    (inr estimator, h6) →
  @cell_7_calls O2 T h6 estimator train test scores_2 h7 →
  dom features = ({["x"; "weights"]} : gset string) ∧
  (∃ it x weights,
     last (log w') = Some (ev (CGetNext it) (VTensors (x, y, weights))) ∧
     features = {["x" := x; "weights" := weights]}) ∧
  @notebook O2 T nw =
    (inr tt, {| globals := notebook_namespace (globals nw) tasks train valid test
                             transformers n_features model metric x_col weight_col
                             estimator;
                host := h7;
                log := log nw ++ notebook_log tasks train valid test transformers
                                   n_features model metric scores_1 x_col weight_col
                                   estimator scores_2 |}).
Proof.
  intros Hrun Hc1 Hc2 Hx Hw Hest Hc7. unfold input_fn in Hrun.
  apply invoke_bind_inv in Hrun as (it & h1' & _ & Hrun).
  apply invoke_bind_inv in Hrun as ([[x y'] weights] & h2' & _ & Hrun).
  injection Hrun as <- <- <-.
  split; [by rewrite dom_insert_L, dom_singleton_L |]. split.
  - exists it, x, weights. split; [| done]. cbn [log]. apply last_snoc.
  - apply notebook_exec. exists h6. split; [| done].
    exists h1, h2, h4. split; [done |]. split; [done |]. split; [by exists h3 | done].
Qed.

(** C7 (as amended). The notebook is a fixed linear sequence with no
    branching: imports, load, build; then the first path fits on the
    training set, evaluates on the test set and prints its report; then the
    second path creates the columns and the estimator, trains on the
    training set, evaluates on the test set and prints its report.  On the
    calls applied, each on the library state the one before left: when all
    calls return the notebook returns, with the namespace, the library
    state and the log they determine, each evaluation being applied to the
    state its training left and each report printed being the one that
    evaluation returned; when [model.fit] or [estimator.train] raises, the
    notebook ends there with that exception and the evaluation of that
    path is never applied.  Whatever the libraries do, the calls made are
    an initial segment of [notebook_plan], cut only by a call that raises. *)
Theorem notebook_is_linear `{Toolkit} (w : World)
    (tasks : list string) (train valid test : Dataset) (transformers : Transformers)
    (n_features : Z) (model : Model) (h1 : Host) :
  cell_1_calls (host w) tasks train valid test transformers n_features model h1 →
  (∀ e h, fit model train 100 h1 = (inl e, h) →
     notebook w =
       (inl e, {| globals := namespace_1 (globals w) tasks train valid test transformers
                               n_features model;
                  host := h;
                  log := log w ++ cell_1_log tasks train valid test transformers
                                    n_features model ++
                                  [raised (CFit model train 100) e] |})) ∧
  (∀ metric scores_1 h2 x_col weight_col h4 estimator h6,
     cell_2_calls h1 model train test metric scores_1 h2 →
     cell_4_calls h2 n_features (Z.of_nat (length tasks)) x_col weight_col h4 →
     cell_6_calls h4 model x_col weight_col estimator h6 →
     (∀ e h, estimator_train estimator (InputFnClosure train 100) h6 = (inl e, h) →
        notebook w =
          (inl e, {| globals := setup_namespace (globals w) tasks train valid test
                                  transformers n_features model metric x_col weight_col
                                  estimator;
                     host := h;
                     log := log w ++ setup_log tasks train valid test transformers
                                       n_features model metric scores_1 x_col weight_col
                                       estimator ++
                                     [raised (CTrain estimator (InputFnClosure train 100)) e]
                  |})) ∧
     (∀ scores_2 h7, cell_7_calls h6 estimator train test scores_2 h7 →
        notebook w =
          (inr tt, {| globals := notebook_namespace (globals w) tasks train valid test
                                   transformers n_features model metric x_col weight_col
                                   estimator;
                      host := h7;
                      log := log w ++ notebook_log tasks train valid test transformers
                                        n_features model metric scores_1 x_col weight_col
                                        estimator scores_2 |}))) ∧
  calls_made notebook w `prefix_of` notebook_plan ∧
  trace_ok (events_of notebook w) (notebook w).1.
Proof.
  intros Hc1. split; [| split; [| split]].
  - intros e h Hfit. by apply (notebook_fit_raises w _ _ _ _ _ _ _ h1).
  - intros metric scores_1 h2 x_col weight_col h4 estimator h6 Hc2 Hc4 Hc6.
    assert (Hsetup : setup_calls (host w) tasks train valid test transformers n_features
                       model metric scores_1 x_col weight_col estimator h6).
    { by exists h1, h2, h4. }
    split.
    + intros e h Htrain. by apply (notebook_train_raises w _ _ _ _ _ _ _ _ _ _ _ _ h6).
    + intros scores_2 h7 Hc7. apply notebook_exec. by exists h6.
  - apply (follows_calls_made _ _ _ w notebook_follows).
  - apply (disciplined_events _ w notebook_disciplined).
Qed.

End Claims.

(** ** Runs on the reference semantics *)

Section RefRuns.
Import Ref.
Local Existing Instance objects.
Local Existing Instance roc_library.

Lemma input_fn_returns_features_and_labels_witness :
  ∃ features,
    input_fn ex_dataset 2 (world 2 []) =
      (inr (features, ex_batch_y),
       {| globals := globals (world 2 []); host := ([] : RHost);
          log := log (world 2 []) ++
                 [ ev (CMakeIterator ex_dataset 100 2) (VIterator ex_iterator);
                   ev (CGetNext ex_iterator)
                      (VTensors (ex_batch_x, ex_batch_y, ex_batch_w)) ] |}) ∧
    features !! "x" = Some ex_batch_x ∧ features !! "weights" = Some ex_batch_w.
Proof.
  apply (@input_fn_returns_features_and_labels objects roc_library
           ex_dataset 2 (world 2 []) ex_iterator ex_batch_x ex_batch_y ex_batch_w [] []);
    reflexivity.
Defined.

Lemma mean_auc_averages_task_aucs_witness :
  (mean_auc ex_labels ex_predictions ex_weights (world 2 [])).1 =
    inr (mean (task_aucs roc_auc 2 ex_labels ex_predictions ex_weights),
         Group (task_updates (length (host (world 2 []))) 2)) ∧
  host (mean_auc ex_labels ex_predictions ex_weights (world 2 [])).2 =
    host (world 2 []) ++ task_inputs 2 ex_labels ex_predictions ex_weights ∧
  length (task_aucs roc_auc 2 ex_labels ex_predictions ex_weights) = 2%nat ∧
  length (task_updates (length (host (world 2 []))) 2) = 2%nat ∧
  calls_made (mean_auc ex_labels ex_predictions ex_weights) (world 2 []) = mean_auc_plan 2.
Proof.
  apply (mean_auc_averages_task_aucs roc_auc ex_labels ex_predictions ex_weights 2
           (world 2 [])); [reflexivity | simpl; lia ..].
Defined.

Lemma adapters_propagate_exceptions_witness :
  (([] : list Event) = [] ∧ (input_fn ex_dataset 0 (world 2 [])).1 = inl OutOfRangeError) ∧
  (([] : list Event) = [] ∧
   (mean_auc ex_narrow ex_predictions ex_weights (world 2 [])).1 = inl IndexError).
Proof.
  split.
  - apply (proj1 (@adapters_propagate_exceptions objects roc_library
                    ex_dataset 0 ex_narrow ex_predictions ex_weights (world 2 [])
                    (take 1 (events_of (@input_fn objects roc_library ex_dataset 0)
                               (world 2 []))) []
                    (@CGetNext objects ex_exhausted) OutOfRangeError)).
    vm_compute. reflexivity.
  - apply (proj2 (@adapters_propagate_exceptions objects roc_library
                    ex_dataset 0 ex_narrow ex_predictions ex_weights (world 2 [])
                    (take 4 (events_of (@mean_auc objects roc_library
                                          ex_narrow ex_predictions ex_weights)
                               (world 2 []))) []
                    (@CGetItem objects ex_narrow 1) IndexError)).
    vm_compute. reflexivity.
Defined.

Lemma adapters_state_is_local_witness :
  acts_alike (input_fn ex_dataset 2) (world 2 []) (world_busy 2 []) ∧
  acts_alike (mean_auc ex_labels ex_predictions ex_weights) (world 2 []) (world_busy 2 []).
Proof.
  apply (@adapters_state_is_local objects roc_library ex_dataset 2
           ex_labels ex_predictions ex_weights (world 2 []) (world_busy 2 []));
    reflexivity.
Defined.

Lemma adapters_call_sequence_is_fixed_witness :
  same_calls (input_fn ex_dataset 2) (world 2 []) (input_fn ex_dataset 7) (world_busy 2 [])
    input_fn_plan ∧
  same_calls (mean_auc ex_labels ex_predictions ex_weights) (world 2 [])
             (mean_auc ex_weights ex_labels ex_predictions) (world_busy 2 [])
             (mean_auc_plan (Z.to_nat 2)).
Proof.
  apply (@adapters_call_sequence_is_fixed objects roc_library ex_dataset ex_dataset 2 7
           ex_labels ex_predictions ex_weights ex_weights ex_labels ex_predictions
           (world 2 []) (world_busy 2 []) 2);
    reflexivity.
Defined.

Lemma mean_auc_symmetric_in_tasks_witness :
  ∃ mean_metric update_all update_all',
    (mean_auc ex_labels ex_predictions ex_weights (world 2 [])).1 =
      inr (mean_metric, update_all) ∧
    (mean_auc (permute_cols [1; 0]%nat ex_labels) (permute_cols [1; 0]%nat ex_predictions)
       (permute_cols [1; 0]%nat ex_weights) (world 2 [])).1 =
      inr (mean_metric, update_all') ∧
    mean_metric = mean (task_aucs roc_auc 2 ex_labels ex_predictions ex_weights) ∧
    ((0 < 2)%nat →
     ∃ q, mean_metric = RScalar q ∧
          (q == sumQ (map (Qmult (1 / inject_Z (Z.of_nat 2)))
                        (task_aucs roc_auc 2 ex_labels ex_predictions ex_weights)))%Q).
Proof.
  apply (mean_auc_symmetric_in_tasks roc_auc ex_labels ex_predictions ex_weights
           [1; 0]%nat 2 (world 2 []));
    [reflexivity | simpl; lia .. | apply perm_swap].
Defined.

Lemma mean_auc_slices_in_range_witness :
  returns (mean_auc ex_labels ex_predictions ex_weights) (world 2 []) ∧
  (mean_auc ex_narrow ex_predictions ex_weights (world 2 [])).1 = inl IndexError.
Proof.
  split.
  - apply (mean_auc_slices_in_range roc_auc 2 2 2 2 _ _ _ (world 2 []));
      [reflexivity | lia].
  - apply (mean_auc_slices_in_range roc_auc 1 2 2 2 _ _ _ (world 2 []));
      [reflexivity | lia].
Defined.

Lemma mean_auc_data_flow_witness :
  ∃ (rs : list TaskResult) (stacked : Tensor) (h' : Host),
    length rs = Z.to_nat 2 ∧
    mean_auc_returns ex_labels ex_predictions ex_weights (host (world 2 [])) rs stacked
      (mean (task_aucs roc_auc 2 ex_labels ex_predictions ex_weights))
      (Group (task_updates 0 2)) h' ∧
    (mean_auc ex_labels ex_predictions ex_weights (world 2 [])).2 =
      {| globals := globals (world 2 []); host := h';
         log := log (world 2 []) ++
                mean_auc_log ex_labels ex_predictions ex_weights rs stacked
                  (mean (task_aucs roc_auc 2 ex_labels ex_predictions ex_weights))
                  (Group (task_updates 0 2)) |}.
Proof.
  apply (@mean_auc_data_flow objects roc_library ex_labels ex_predictions ex_weights
           (world 2 [])
           (@mean_auc objects roc_library ex_labels ex_predictions ex_weights
              (world 2 [])).2 2
           (mean (task_aucs roc_auc 2 ex_labels ex_predictions ex_weights))
           (Group (task_updates 0 2)));
    [reflexivity | vm_compute; reflexivity].
Defined.

Lemma mean_auc_without_tasks_witness :
  mean_auc ex_labels ex_predictions ex_weights (world 0 []) =
    mean_auc ex_narrow ex_narrow ex_narrow (world 0 []) ∧
  calls_made (mean_auc ex_labels ex_predictions ex_weights) (world 0 [])
    `prefix_of` [KStack 0; KReduceMean; KGroup 0] ∧
  (returns (mean_auc ex_labels ex_predictions ex_weights) (world 0 []) →
   calls_made (mean_auc ex_labels ex_predictions ex_weights) (world 0 []) =
     [KStack 0; KReduceMean; KGroup 0]).
Proof.
  apply (@mean_auc_without_tasks objects roc_library ex_labels ex_predictions ex_weights
           ex_narrow ex_narrow ex_narrow (world 0 []) 0); [reflexivity | lia].
Defined.

Lemma mean_auc_needs_n_tasks_witness :
  mean_auc ex_labels ex_predictions ex_weights (@Build_World objects ∅ ([] : RHost) []) =
    (inl (NameError "n_tasks"), @Build_World objects ∅ ([] : RHost) []).
Proof.
  exact (@mean_auc_needs_n_tasks objects roc_library ex_labels ex_predictions ex_weights
           (@Build_World objects ∅ ([] : RHost) []) eq_refl).
Defined.

Lemma mean_auc_between_bounds_witness :
  ∃ q update_all,
    (mean_auc ex_labels ex_predictions ex_weights (world 2 [])).1 =
      inr (RScalar q, update_all) ∧
    (0 <= q <= 1)%Q.
Proof.
  apply (mean_auc_between_bounds roc_auc ex_labels ex_predictions ex_weights 2
           (world 2 []) 0 1);
    [reflexivity | lia | simpl; lia .. |].
  repeat constructor; vm_compute; discriminate.
Defined.

Lemma mean_auc_stops_at_first_missing_column_witness :
  (mean_auc ex_narrow ex_predictions ex_weights (world 2 [])).1 = inl IndexError ∧
  calls_made (mean_auc ex_narrow ex_predictions ex_weights) (world 2 []) =
    loop_plan (seq 0 (1 `min` (2 `min` 2))) ++
    take (slices_tried 1 2 (1 `min` (2 `min` 2))) (task_plan (1 `min` (2 `min` 2))) ∧
  host (mean_auc ex_narrow ex_predictions ex_weights (world 2 [])).2 =
    host (world 2 []) ++
    task_inputs (1 `min` (2 `min` 2)) ex_narrow ex_predictions ex_weights.
Proof.
  apply (mean_auc_stops_at_first_missing_column roc_auc 1 2 2 2 _ _ _ (world 2 []));
    [reflexivity | simpl; lia].
Defined.

Lemma mean_auc_ignores_extra_columns_witness :
  (mean_auc ex_labels ex_predictions ex_weights (world 2 [])).1 =
    (mean_auc ex_wide ex_predictions ex_weights (world 2 [])).1 ∧
  host (mean_auc ex_labels ex_predictions ex_weights (world 2 [])).2 =
    host (mean_auc ex_wide ex_predictions ex_weights (world 2 [])).2.
Proof.
  apply (mean_auc_ignores_extra_columns roc_auc ex_labels ex_predictions ex_weights
           ex_wide ex_predictions ex_weights 2 (world 2 []));
    [reflexivity | simpl; lia .. |].
  intros [|[|i]] Hi; [by repeat split .. | lia].
Defined.

End RefRuns.

(** ** The recorded run *)

Section RecordedRun.
Import Recorded.
Local Existing Instance objects.
Local Existing Instance toolkit.

(** C7, as stated, fails on the run the notebook records: the report of the
    first path is printed (tenth event) before the second path trains its
    estimator (fourteenth event), so printing is not what the notebook does
    last. *)
Lemma first_report_is_printed_before_the_estimator_path :
  ¬ prints_come_last (events_of notebook fresh).
Proof.
  intros Hlast.
  assert (H9 : events_of notebook fresh !! 9%nat = Some (ev (CPrint deepchem_scores) VNone))
    by (vm_compute; reflexivity).
  assert (H13 : events_of notebook fresh !! 13%nat =
                Some (ev (CTrain tt (InputFnClosure Train 100)) VNone))
    by (vm_compute; reflexivity).
  exact (Hlast 9%nat 13%nat _ _ H9 H13 ltac:(lia) I).
Qed.

Lemma notebook_is_linear_witness :
  notebook fresh =
    (inr tt, {| globals := notebook_namespace (globals fresh) tox21_tasks Train Valid Test tt
                             1024 tt tt ("x", [1024]) ("weights", [12]) tt;
                host := checkpoints;
                log := log fresh ++ notebook_log tox21_tasks Train Valid Test tt 1024 tt tt
                                      deepchem_scores ("x", [1024]) ("weights", [12]) tt
                                      estimator_scores |}) ∧
  @notebook objects (toolkit_with (Some (LibraryError "fit")) None) fresh =
    (inl (LibraryError "fit"),
     {| globals := namespace_1 (globals fresh) tox21_tasks Train Valid Test tt 1024 tt;
        host := no_files;
        log := log fresh ++ cell_1_log tox21_tasks Train Valid Test tt 1024 tt ++
                            [raised (CFit tt Train 100) (LibraryError "fit")] |}) ∧
  @notebook objects (toolkit_with None (Some (LibraryError "train"))) fresh =
    (inl (LibraryError "train"),
     {| globals := setup_namespace (globals fresh) tox21_tasks Train Valid Test tt 1024 tt tt
                     ("x", [1024]) ("weights", [12]) tt;
        host := no_files;
        log := log fresh ++ setup_log tox21_tasks Train Valid Test tt 1024 tt tt
                              deepchem_scores ("x", [1024]) ("weights", [12]) tt ++
                            [raised (CTrain tt (InputFnClosure Train 100))
                               (LibraryError "train")] |}).
Proof.
  assert (Hc1 : ∀ fit_raises train_raises,
            @cell_1_calls objects (toolkit_with fit_raises train_raises) (host fresh)
              tox21_tasks Train Valid Test tt 1024 tt no_files).
  { intros fit_raises train_raises.
    exists no_files, no_files, no_files, no_files, no_files. repeat split; reflexivity. }
  split; [| split].
  - destruct (@notebook_is_linear objects toolkit fresh tox21_tasks Train Valid Test tt
                1024 tt no_files (Hc1 None None)) as (_ & Hpaths & _).
    destruct (Hpaths tt deepchem_scores no_files ("x", [1024]) ("weights", [12]) no_files tt
                no_files) as [_ Hdone].
    + exists no_files, no_files. repeat split; reflexivity.
    + exists no_files. repeat split; reflexivity.
    + reflexivity.
    + apply (Hdone estimator_scores checkpoints). exists checkpoints. split; reflexivity.
  - destruct (@notebook_is_linear objects (toolkit_with (Some (LibraryError "fit")) None)
                fresh tox21_tasks Train Valid Test tt 1024 tt no_files (Hc1 _ _))
      as (Hfit & _).
    apply (Hfit (LibraryError "fit") no_files). reflexivity.
  - destruct (@notebook_is_linear objects (toolkit_with None (Some (LibraryError "train")))
                fresh tox21_tasks Train Valid Test tt 1024 tt no_files (Hc1 _ _))
      as (_ & Hpaths & _).
    destruct (Hpaths tt deepchem_scores no_files ("x", [1024]) ("weights", [12]) no_files tt
                no_files) as [Hraise _].
    + exists no_files, no_files. repeat split; reflexivity.
    + exists no_files. repeat split; reflexivity.
    + reflexivity.
    + apply (Hraise (LibraryError "train") no_files). reflexivity.
Defined.

Lemma input_fn_keys_match_columns_witness :
  dom ({["x" := Ref.ex_batch_x; "weights" := Ref.ex_batch_w]} : gmap string Ref.RTensor) =
    ({["x"; "weights"]} : gset string) ∧
  (∃ (it : Ref.RIterator) (x weights : Ref.RTensor),
     last (log (@input_fn Ref.objects (Ref.library Ref.roc_auc) Ref.ex_dataset 2
                  (Ref.world 2 [])).2) =
       Some (@ev Ref.objects (@CGetNext Ref.objects it)
               (@VTensors Ref.objects (x, Ref.ex_batch_y, weights))) ∧
     ({["x" := Ref.ex_batch_x; "weights" := Ref.ex_batch_w]} : gmap string Ref.RTensor) =
       {["x" := x; "weights" := weights]}) ∧
  notebook fresh =
    (inr tt, {| globals := notebook_namespace (globals fresh) tox21_tasks Train Valid Test tt
                             1024 tt tt ("x", [1024]) ("weights", [12]) tt;
                host := checkpoints;
                log := log fresh ++ notebook_log tox21_tasks Train Valid Test tt 1024 tt tt
                                      deepchem_scores ("x", [1024]) ("weights", [12]) tt
                                      estimator_scores |}).
Proof.
  apply (input_fn_keys_match_columns Ref.objects (Ref.library Ref.roc_auc)
           objects toolkit Ref.ex_dataset 2 (Ref.world 2 [])
           (@input_fn Ref.objects (Ref.library Ref.roc_auc) Ref.ex_dataset 2
              (Ref.world 2 [])).2
           {["x" := Ref.ex_batch_x; "weights" := Ref.ex_batch_w]} Ref.ex_batch_y
           fresh tox21_tasks Train Valid Test tt 1024 tt tt deepchem_scores
           ("x", [1024]) ("weights", [12]) tt estimator_scores
           no_files no_files no_files no_files no_files checkpoints).
  - reflexivity.
  - exists no_files, no_files, no_files, no_files, no_files. repeat split; reflexivity.
  - exists no_files, no_files. repeat split; reflexivity.
  - reflexivity.
  - reflexivity.
  - reflexivity.
  - exists checkpoints. split; reflexivity.
Defined.

Lemma notebook_final_namespace_witness :
  ∃ tasks train valid test transformers n_features model metric scores_1
    x_col weight_col estimator scores_2,
    notebook_calls (host fresh) tasks train valid test transformers n_features model metric
      scores_1 x_col weight_col estimator scores_2 (host (notebook fresh).2) ∧
    globals (notebook fresh).2 =
      notebook_namespace (globals fresh) tasks train valid test transformers
        n_features model metric x_col weight_col estimator ∧
    (∀ x, x ∉ notebook_names → globals (notebook fresh).2 !! x = globals fresh !! x) ∧
    (∀ x, x ∈ notebook_names → is_Some (globals (notebook fresh).2 !! x)).
Proof.
  apply (@notebook_final_namespace objects toolkit fresh (notebook fresh).2).
  vm_compute. reflexivity.
Defined.


Lemma cells_need_their_names_witness :
  cell_2 fresh = (inl (NameError "model"), fresh) ∧
  cell_4 fresh = (inl (NameError "tf"), fresh) ∧
  cell_6 fresh = (inl (NameError "model"), fresh) ∧
  cell_7 fresh = (inl (NameError "estimator"), fresh) ∧
  cell_4 only_tf = (inl (NameError "n_features"), only_tf).
Proof.
  apply (@cells_need_their_names objects toolkit fresh only_tf "tensorflow"); reflexivity.
Defined.

End RecordedRun.
